(** * Sequelize core: Snowflake query generator and the transaction engine

    A shallow embedding of

    - [packages/core/src/dialects/snowflake/query-generator-typescript.ts]
      (class [SnowflakeQueryGeneratorTypeScript]), and
    - the abstract class [SequelizeTypeScript] (managed transactions,
      [destroyAll], [truncate], [withConnection]).

    JavaScript option bags are association lists from property names to
    values (insertion order is the order of [Object.keys]).  Effectful code
    runs in a state-and-exception monad over a [World] that records, in
    order, every call made to a collaborator (transaction, connection
    manager, model).  A thrown error keeps the world it was thrown in, as a
    JavaScript exception keeps the side effects already performed. *)

From Stdlib Require Import Ascii String List Bool Arith ZArith Lia.
Import ListNotations.
Open Scope string_scope.

(* ================================================================== *)
(** ** JavaScript values and objects *)
(* ================================================================== *)

Module Js.

(** The values that travel through option bags. [JHandle] stands for a host
    object that is only passed around (a connection, for instance). *)
#[local] Unset Elimination Schemes.
Inductive JsValue : Type :=
| JUndefined
| JNull
| JBool (b : bool)
| JNumber (z : Z)
| JString (s : string)
| JArray (items : list JsValue)
| JObject (props : list (string * JsValue))
| JHandle (id : nat).
#[local] Set Elimination Schemes.

Definition JsObject : Type := list (string * JsValue).

(** [Boolean(v)]: what an [if (v)] or a [v ? a : b] tests. *)
Definition truthy (v : JsValue) : bool :=
  match v with
  | JUndefined | JNull => false
  | JBool b => b
  | JNumber z => negb (Z.eqb z 0)
  | JString s => negb (String.eqb s "")
  | JArray _ | JObject _ | JHandle _ => true
  end.

(** [o.k]: the value of an own property, [undefined] when there is none. *)
Fixpoint obj_get (o : JsObject) (k : string) : JsValue :=
  match o with
  | [] => JUndefined
  | (k', v) :: rest => if String.eqb k k' then v else obj_get rest k
  end.

(** [options?.k] on an optional bag. *)
Definition opt_get (o : option JsObject) (k : string) : JsValue :=
  match o with
  | Some o => obj_get o k
  | None => JUndefined
  end.

(** [k in o] *)
Fixpoint obj_has (o : JsObject) (k : string) : bool :=
  match o with
  | [] => false
  | (k', _) :: rest => String.eqb k k' || obj_has rest k
  end.

(** [o.k = v]: an existing property keeps its position, a new one goes last. *)
Fixpoint obj_set (k : string) (v : JsValue) (o : JsObject) : JsObject :=
  match o with
  | [] => [(k, v)]
  | (k', v') :: rest =>
      if String.eqb k k' then (k', v) :: rest else (k', v') :: obj_set k v rest
  end.

(** [{ ...base, ...o }] *)
Definition obj_spread (base o : JsObject) : JsObject :=
  fold_left (fun acc kv => obj_set (fst kv) (snd kv) acc) o base.

(** [{ ...options }] where [options] may be [undefined]. *)
Definition opt_spread (o : option JsObject) : JsObject :=
  match o with
  | Some o => obj_spread [] o
  | None => []
  end.

(** [Object.keys(o)] *)
Definition keys (o : JsObject) : list string := map fst o.

(** [set.has(k)] on a [Set<string>] given by its elements. *)
Definition set_has (s : list string) (k : string) : bool :=
  existsb (String.eqb k) s.

(** The double quote character, as a one-character string. *)
Definition dq : string := String (Ascii.Ascii false true false false false true false false) EmptyString.

End Js.
Export Js.

(* ================================================================== *)
(** ** Errors and outcomes *)
(* ================================================================== *)

(** What the code throws: [new Error(message)], the [TypeError] of calling
    something that is not a function, and the two errors of the option
    validator. *)
Inductive exn : Type :=
| Error (message : string)
| TypeError (message : string)
| DialectNotSupportedError (operation dialect option : string)
| UnknownOptionError (operation option : string).

Inductive Outcome (A : Type) : Type :=
| Return (a : A)
| Throw (e : exn).
Arguments Return {A} a.
Arguments Throw {A} e.

Definition is_throw {A} (r : Outcome A) : bool :=
  match r with Throw _ => true | Return _ => false end.

(** Sequencing of code that may throw and has no other effect. *)
Definition andThen {A B} (r : Outcome A) (k : A -> Outcome B) : Outcome B :=
  match r with
  | Return a => k a
  | Throw e => Throw e
  end.

(* ================================================================== *)
(** ** The Snowflake query generator *)
(* ================================================================== *)

Module SnowflakeQueryGenerator.

(** A table reference as callers give it. *)
Inductive TableNameOrModel : Type :=
| TableName (name : string)
| TableNameWithSchema (schema tableName : string)
| ModelReference (model : string).

(** What [extractTableDetails] resolves a reference to. *)
Record TableDetails : Type := { tableName : string; schema : string }.

(** Modelled from the spec: [rejectInvalidOptions] of [utils/check] (§4.2).
    For every key present in the supplied options and not in the supported
    set: a key of the supportable set fails with [DialectNotSupportedError]
    naming the operation, the dialect and the option, any other key fails
    with [UnknownOptionError].  Keys are visited in [Object.keys] order. *)
Fixpoint rejectOptionKeys (methodName dialectName : string)
    (allSupportableOptions supportedOptions : list string) (ks : list string)
    : Outcome unit :=
  match ks with
  | [] => Return tt
  | k :: rest =>
      if set_has supportedOptions k
      then rejectOptionKeys methodName dialectName allSupportableOptions supportedOptions rest
      else if set_has allSupportableOptions k
      then Throw (DialectNotSupportedError methodName dialectName k)
      else Throw (UnknownOptionError methodName k)
  end.

Definition rejectInvalidOptions (methodName dialectName : string)
    (allSupportableOptions supportedOptions : list string) (receivedOptions : JsObject)
    : Outcome unit :=
  rejectOptionKeys methodName dialectName allSupportableOptions supportedOptions
    (keys receivedOptions).

(** What the generator takes from the rest of the library: the dialect's
    name, the escaping and quoting primitives of the abstract generator, the
    technical schemas of the dialect's internals, the fragment assembler of
    [utils/join-sql-fragments] and the supportable option sets declared by
    the abstract generator. *)
Record Context : Type := {
  dialect_name : string;
  escape : JsValue -> string;
  quoteIdentifier : string -> string;
  quoteTable : TableNameOrModel -> string;
  extractTableDetails : TableNameOrModel -> TableDetails;
  getTechnicalSchemaNames : list string;
  joinSQLFragments : list string -> string;
  CREATE_DATABASE_QUERY_SUPPORTABLE_OPTIONS : list string;
  LIST_DATABASES_QUERY_SUPPORTABLE_OPTIONS : list string;
  SHOW_CONSTRAINTS_QUERY_SUPPORTABLE_OPTIONS : list string;
  TRUNCATE_TABLE_QUERY_SUPPORTABLE_OPTIONS : list string
}.

Definition CREATE_DATABASE_QUERY_SUPPORTED_OPTIONS : list string := [].
Definition LIST_DATABASES_QUERY_SUPPORTED_OPTIONS : list string := [].
Definition SHOW_CONSTRAINTS_QUERY_SUPPORTED_OPTIONS : list string :=
  ["constraintName"; "constraintType"].
Definition TRUNCATE_TABLE_QUERY_SUPPORTED_OPTIONS : list string := [].

Section Generator.

Variable this : Context.

(** [if (options) { rejectInvalidOptions(...) }] *)
Definition validateIfSupplied (methodName : string)
    (supportable supported : list string) (options : option JsObject) : Outcome unit :=
  match options with
  | Some o => rejectInvalidOptions methodName (dialect_name this) supportable supported o
  | None => Return tt
  end.

Definition createDatabaseQuery (database : string) (options : option JsObject)
    : Outcome string :=
  andThen
    (validateIfSupplied "createDatabaseQuery"
       (CREATE_DATABASE_QUERY_SUPPORTABLE_OPTIONS this)
       CREATE_DATABASE_QUERY_SUPPORTED_OPTIONS options)
    (fun _ =>
       Return (joinSQLFragments this
         ["CREATE DATABASE IF NOT EXISTS " ++ quoteIdentifier this database])).

Definition listDatabasesQuery (options : option JsObject) : Outcome string :=
  andThen
    (validateIfSupplied "listDatabasesQuery"
       (LIST_DATABASES_QUERY_SUPPORTABLE_OPTIONS this)
       LIST_DATABASES_QUERY_SUPPORTED_OPTIONS options)
    (fun _ => Return "SHOW DATABASES").

(** The list [schemasToSkip] of [listSchemasQuery]. *)
Definition schemasToSkip (options : option JsObject) : list JsValue :=
  let technical := map JString (getTechnicalSchemaNames this) in
  match options with
  | Some o =>
      match obj_get o "skip" with
      | JArray skip => technical ++ skip
      | _ => technical
      end
  | None => technical
  end.

Definition listSchemasQuery (options : option JsObject) : string :=
  joinSQLFragments this
    ["SELECT SCHEMA_NAME AS " ++ dq ++ "schema" ++ dq;
     "FROM INFORMATION_SCHEMA.SCHEMATA";
     "WHERE SCHEMA_NAME NOT IN ("
       ++ String.concat ", " (map (escape this) (schemasToSkip options)) ++ ")"].

Definition describeTableQuery (tableName : TableNameOrModel) : string :=
  "SHOW FULL COLUMNS FROM " ++ quoteTable this tableName ++ ";".

(** The two alternatives of the fourth fragment of [listTablesQuery]. *)
Definition schemaFilter (schema : JsValue) : string :=
  "AND TABLE_SCHEMA = " ++ escape this schema.

Definition technicalSchemaExclusion : string :=
  "AND TABLE_SCHEMA NOT IN ("
    ++ String.concat ", "
         (map (fun schema => escape this (JString schema)) (getTechnicalSchemaNames this))
    ++ ")".

(** The first three fragments of [listTablesQuery]. *)
Definition listTablesSelect : list string :=
  ["SELECT TABLE_NAME AS " ++ dq ++ "tableName" ++ dq ++ ",";
   "TABLE_SCHEMA AS " ++ dq ++ "schema" ++ dq;
   "FROM INFORMATION_SCHEMA.TABLES WHERE TABLE_TYPE = 'BASE TABLE'"].

(** The array literal handed to [joinSQLFragments] by [listTablesQuery]. *)
Definition listTablesFragments (options : option JsObject) : list string :=
  listTablesSelect ++
  [if truthy (opt_get options "schema")
   then schemaFilter (opt_get options "schema")
   else technicalSchemaExclusion;
   "ORDER BY TABLE_SCHEMA, TABLE_NAME"].

Definition listTablesQuery (options : option JsObject) : string :=
  joinSQLFragments this (listTablesFragments options).

Definition truncateTableQuery (tableName : TableNameOrModel) (options : option JsObject)
    : Outcome string :=
  andThen
    (validateIfSupplied "truncateTableQuery"
       (TRUNCATE_TABLE_QUERY_SUPPORTABLE_OPTIONS this)
       TRUNCATE_TABLE_QUERY_SUPPORTED_OPTIONS options)
    (fun _ => Return ("TRUNCATE " ++ quoteTable this tableName)).

(** The fragments of [showConstraintsQuery] that do not depend on its
    arguments: the selected columns and the joined catalog views. *)
Definition showConstraintsSelect : list string :=
  ["SELECT c.CONSTRAINT_CATALOG AS constraintCatalog,";
   "c.CONSTRAINT_SCHEMA AS constraintSchema,";
   "c.CONSTRAINT_NAME AS constraintName,";
   "c.CONSTRAINT_TYPE AS constraintType,";
   "c.TABLE_CATALOG AS tableCatalog,";
   "c.TABLE_SCHEMA AS tableSchema,";
   "c.TABLE_NAME AS tableName,";
   "fk.TABLE_SCHEMA AS referencedTableSchema,";
   "fk.TABLE_NAME AS referencedTableName,";
   "r.DELETE_RULE AS deleteAction,";
   "r.UPDATE_RULE AS updateAction,";
   "c.IS_DEFERRABLE AS isDeferrable,";
   "c.INITIALLY_DEFERRED AS initiallyDeferred";
   "FROM INFORMATION_SCHEMA.TABLE_CONSTRAINTS c";
   "LEFT JOIN INFORMATION_SCHEMA.REFERENTIAL_CONSTRAINTS r ON c.CONSTRAINT_CATALOG = r.CONSTRAINT_CATALOG AND c.CONSTRAINT_SCHEMA = r.CONSTRAINT_SCHEMA AND c.CONSTRAINT_NAME = r.CONSTRAINT_NAME";
   "LEFT JOIN INFORMATION_SCHEMA.TABLE_CONSTRAINTS fk ON r.UNIQUE_CONSTRAINT_CATALOG = fk.CONSTRAINT_CATALOG AND r.UNIQUE_CONSTRAINT_SCHEMA = fk.CONSTRAINT_SCHEMA AND r.UNIQUE_CONSTRAINT_NAME = fk.CONSTRAINT_NAME"].

(** The array literal handed to [joinSQLFragments] by [showConstraintsQuery],
    for the table details [table]. *)
Definition showConstraintsFragments (table : TableDetails) (options : option JsObject)
    : list string :=
  showConstraintsSelect ++
  ["WHERE c.TABLE_NAME = " ++ escape this (JString (tableName table));
   "AND c.TABLE_SCHEMA = " ++ escape this (JString (schema table));
   if truthy (opt_get options "constraintName")
   then "AND c.CONSTRAINT_NAME = " ++ escape this (opt_get options "constraintName")
   else "";
   if truthy (opt_get options "constraintType")
   then "AND c.CONSTRAINT_TYPE = " ++ escape this (opt_get options "constraintType")
   else "";
   "ORDER BY c.CONSTRAINT_NAME"].

Definition showConstraintsQuery (tableName : TableNameOrModel) (options : option JsObject)
    : Outcome string :=
  andThen
    (validateIfSupplied "showConstraintsQuery"
       (SHOW_CONSTRAINTS_QUERY_SUPPORTABLE_OPTIONS this)
       SHOW_CONSTRAINTS_QUERY_SUPPORTED_OPTIONS options)
    (fun _ =>
       let table := extractTableDetails this tableName in
       Return (joinSQLFragments this (showConstraintsFragments table options))).

Definition showIndexesQuery : string := "SELECT '' FROM DUAL".

Definition versionQuery : string :=
  "SELECT CURRENT_VERSION() AS " ++ dq ++ "version" ++ dq.

End Generator.

End SnowflakeQueryGenerator.

(* ================================================================== *)
(** ** Effects: the world, and code that runs in it *)
(* ================================================================== *)

Module Effects.

Inductive TransactionNestMode : Type := reuse | savepoint | separate.

(** A transaction entity.  Object identity is the allocation number [txId];
    [txParent] is the transaction it is nested under, if any. *)
#[local] Unset Elimination Schemes.
Inductive Transaction : Type := mkTransaction {
  txId : nat;
  txParent : option Transaction;
  txOptions : JsObject
}.
#[local] Set Elimination Schemes.

(** [a === b] on transaction objects. *)
Definition same_object (a b : Transaction) : bool := Nat.eqb (txId a) (txId b).

Definition Connection : Type := nat.
Definition ModelStatic : Type := string.

(** Calls made to collaborators, in the order they are made. *)
Inductive Event : Type :=
| NewTransaction (t : Transaction)
| PrepareEnvironment (t : Transaction)
| Commit (t : Transaction)
| Rollback (t : Transaction)
| GetConnection (options : JsObject)
| ReleaseConnection (c : Connection)
| DestroyConnection (c : Connection)
| ModelDestroy (model : ModelStatic) (options : JsObject)
| ModelTruncate (model : ModelStatic) (options : option JsObject).

Record World : Type := {
  nextObjectId : nat;
  (** the store of the [AsyncLocalStorage] in the running async context *)
  clsStore : option Transaction;
  trace : list Event
}.

Definition log (e : Event) (w : World) : World :=
  {| nextObjectId := nextObjectId w; clsStore := clsStore w; trace := trace w ++ [e] |}.

Definition setStore (s : option Transaction) (w : World) : World :=
  {| nextObjectId := nextObjectId w; clsStore := s; trace := trace w |}.

(** The world once the transaction object [t] has been constructed. *)
Definition register (t : Transaction) (w : World) : World :=
  {| nextObjectId := S (nextObjectId w);
     clsStore := clsStore w;
     trace := trace w ++ [NewTransaction t] |}.

(** An [async] computation: from the world it starts in to its outcome and
    the world it leaves.  Awaited calls run to completion one after the
    other. *)
Definition M (A : Type) : Type := World -> Outcome A * World.

Definition ret {A} (a : A) : M A := fun w => (Return a, w).
Definition throw {A} (e : exn) : M A := fun w => (Throw e, w).

(** Code that may throw and touches nothing. *)
Definition lift {A} (r : Outcome A) : M A := fun w => (r, w).

Definition bind {A B} (m : M A) (k : A -> M B) : M B :=
  fun w =>
    match m w with
    | (Return a, w') => k a w'
    | (Throw e, w') => (Throw e, w')
    end.

(** [try { body } catch (error) { handler }] *)
Definition tryCatch {A} (body : M A) (handler : exn -> M A) : M A :=
  fun w =>
    match body w with
    | (Return a, w') => (Return a, w')
    | (Throw e, w') => handler e w'
    end.

(** [try { body } finally { finalizer }]: an error of the finalizer replaces
    the outcome of the body. *)
Definition tryFinally {A} (body : M A) (finalizer : M unit) : M A :=
  fun w =>
    let (r, w1) := body w in
    match finalizer w1 with
    | (Return _, w2) => (r, w2)
    | (Throw e, w2) => (Throw e, w2)
    end.

(** A call to a collaborator: it is recorded, and its outcome is the one the
    collaborator has in the world it is called in. *)
Definition call {A} (e : Event) (outcome : World -> Outcome A) : M A :=
  fun w => (outcome w, log e w).

(** [cls.run(store, callback)]: the store is [store] while [callback] runs,
    and what it was before once it is over. *)
Definition cls_run {A} (store : Transaction) (callback : M A) : M A :=
  fun w =>
    let (r, w') := callback (setStore (Some store) w) in
    (r, setStore (clsStore w) w').

End Effects.
Export Effects.

Declare Scope js_scope.
Delimit Scope js_scope with js.
Notation "x <- c1 ;; c2" := (bind c1 (fun x => c2))
  (at level 61, c1 at next level, right associativity) : js_scope.
Notation "c1 ;; c2" := (bind c1 (fun _ => c2))
  (at level 61, right associativity) : js_scope.
Open Scope js_scope.

(** [for (const x of xs) { await body(x); }] *)
Fixpoint forEach {A} (xs : list A) (body : A -> M unit) : M unit :=
  match xs with
  | [] => ret tt
  | x :: rest => body x ;; forEach rest body
  end.

(** [Promise.all(xs.map(async x => f(x)))]: every call is started, in the
    order of [xs], whether an earlier one fails or not; the result is
    rejected when one of them is.  The calls do not interleave in this
    model, so the rejection reported is that of the first failing element. *)
Fixpoint promiseAllMap {A B} (xs : list A) (f : A -> M B) : M (list B) :=
  match xs with
  | [] => ret []
  | x :: rest =>
      fun w =>
        let (r, w1) := f x w in
        let (rs, w2) := promiseAllMap rest f w1 in
        (match r, rs with
         | Throw e, _ => Throw e
         | Return _, Throw e => Throw e
         | Return b, Return bs => Return (b :: bs)
         end, w2)
  end.

(* ================================================================== *)
(** ** The class [SequelizeTypeScript] *)
(* ================================================================== *)

Module SequelizeTypeScript.

(** [ManagedTransactionOptions]: the nest mode, the transaction passed by the
    caller, and the remaining settings (type, isolation level, ...). *)
Record TransactionOptions : Type := {
  o_nestMode : option TransactionNestMode;
  o_transaction : option Transaction;
  o_settings : JsObject
}.

(** [{}] *)
Definition emptyOptions : TransactionOptions :=
  {| o_nestMode := None; o_transaction := None; o_settings := [] |}.

(** [delete normalizedOptions.transaction] *)
Definition deleteTransaction (o : TransactionOptions) : TransactionOptions :=
  {| o_nestMode := o_nestMode o; o_transaction := None; o_settings := o_settings o |}.

Definition withTransaction (t : Transaction) (o : TransactionOptions) : TransactionOptions :=
  {| o_nestMode := o_nestMode o; o_transaction := Some t; o_settings := o_settings o |}.

(** An argument that is either the options or the callback. *)
Inductive OptionsOrCallback (O C : Type) : Type :=
| IsCallback (callback : C)
| IsOptions (options : O).
Arguments IsCallback {O C} callback.
Arguments IsOptions {O C} options.

Definition TransactionCallback (T : Type) : Type := Transaction -> M T.
Definition SessionCallback (T : Type) : Type := Connection -> M T.

(** What a call that is not awaited comes to: it completed, with a result
    or an error thrown before it returned, or it returned a promise, which
    settles later to an outcome that nobody waits for. *)
Inductive Completion : Type :=
| Completed (r : Outcome unit)
| Promised (settles : Outcome unit).

(** What the caller of a call it does not await sees of it: a returned
    promise is a return, whatever the promise settles to. *)
Definition notAwaited (c : Completion) : Outcome unit :=
  match c with
  | Completed r => r
  | Promised _ => Return tt
  end.

(** An instance: its options, its dialect, its model manager, and the
    behaviour of the collaborators it calls.  A collaborator's outcome may
    depend on everything that happened before it is called.  The outcome of
    an awaited call is what its promise settles to; [releaseConnection] is
    the one call that is made without [await]. *)
Record Sequelize : Type := {
  (** [this.options.defaultTransactionNestMode] *)
  defaultTransactionNestMode : TransactionNestMode;
  (** whether [_setupTransactionCls] has set [#transactionCls] *)
  hasTransactionCls : bool;
  (** [this.dialect.name] *)
  dialectName : string;
  (** [this.dialect.supports.constraints.foreignKeyChecksDisableable] *)
  foreignKeyChecksDisableable : bool;
  (** [this.modelManager.models] *)
  models : list ModelStatic;
  (** [this.modelManager.getModelsTopoSortedByForeignKey()]: [None] is the
      [null] returned for a cyclic graph *)
  getModelsTopoSortedByForeignKey : option (list ModelStatic);
  normalizeTransactionOptions : TransactionOptions -> TransactionOptions;
  assertTransactionIsCompatibleWithOptions :
    Transaction -> TransactionOptions -> Outcome unit;
  prepareEnvironment_outcome : Transaction -> World -> Outcome unit;
  commit_outcome : Transaction -> World -> Outcome unit;
  rollback_outcome : Transaction -> World -> Outcome unit;
  getConnection_outcome : JsObject -> World -> Outcome Connection;
  releaseConnection_completion : Connection -> World -> Completion;
  destroyConnection_outcome : Connection -> World -> Outcome unit;
  destroy_outcome : ModelStatic -> JsObject -> World -> Outcome unit;
  truncate_outcome : ModelStatic -> option JsObject -> World -> Outcome unit;
  (** [this.queryInterface.withoutForeignKeyChecks(options, callback)] *)
  withoutForeignKeyChecks : JsObject -> (Connection -> M unit) -> M unit
}.

(** The outcome of [this.connectionManager.releaseConnection(connection)]
    for a caller that does not await it. *)
Definition releaseConnection_outcome (this : Sequelize) (c : Connection) (w : World)
    : Outcome unit :=
  notAwaited (releaseConnection_completion this c w).

Section Instance.

Variable this : Sequelize.

(** *** Collaborator calls *)

Definition prepareEnvironment (t : Transaction) : M unit :=
  call (PrepareEnvironment t) (prepareEnvironment_outcome this t).

Definition commit (t : Transaction) : M unit :=
  call (Commit t) (commit_outcome this t).

Definition rollback (t : Transaction) : M unit :=
  call (Rollback t) (rollback_outcome this t).

Definition getConnection (options : JsObject) : M Connection :=
  call (GetConnection options) (getConnection_outcome this options).

(** Not awaited (line 563): a promise it returns is dropped. *)
Definition releaseConnection (c : Connection) : M unit :=
  call (ReleaseConnection c) (releaseConnection_outcome this c).

Definition destroyConnection (c : Connection) : M unit :=
  call (DestroyConnection c) (destroyConnection_outcome this c).

Definition destroy (model : ModelStatic) (options : JsObject) : M unit :=
  call (ModelDestroy model options) (destroy_outcome this model options).

Definition truncateModel (model : ModelStatic) (options : option JsObject) : M unit :=
  call (ModelTruncate model options) (truncate_outcome this model options).

(** *** Transactions *)

(** [this.#transactionCls?.getStore()] *)
Definition getCurrentClsTransaction (w : World) : option Transaction :=
  if hasTransactionCls this then clsStore w else None.

(** Modelled from the spec: [setTransactionFromCls] of [model-internals]
    (§4.4 step 2, "fetch the ambient transaction (if any)").  Options that
    name no transaction receive the ambient one. *)
Definition setTransactionFromCls (options : TransactionOptions) : M TransactionOptions :=
  fun w =>
    match o_transaction options, getCurrentClsTransaction w with
    | None, Some ambient => (Return (withTransaction ambient options), w)
    | _, _ => (Return options, w)
    end.

(** Modelled from the spec: the constructor of [Transaction] (§4.4 step 3,
    "a newly constructed entity bound to a parent (savepoint) or no parent").
    The new object is bound to the transaction of its options. *)
Definition constructed (options : TransactionOptions) (w : World) : Transaction :=
  {| txId := nextObjectId w;
     txParent := o_transaction options;
     txOptions := o_settings options |}.

Definition newTransaction (options : TransactionOptions) : M Transaction :=
  fun w =>
    let t := constructed options w in
    (Return t, register t w).

(** The overloads of [transaction] and [withConnection]: the options and the
    callback, from the two positional arguments. *)
Definition parseArguments {O C} (default : O) (adjust : O -> O)
    (optionsOrCallback : OptionsOrCallback O C) (maybeCallback : option C)
    : O * option C :=
  match optionsOrCallback with
  | IsCallback callback => (default, Some callback)
  | IsOptions options => (adjust options, maybeCallback)
  end.

Definition resolveNestMode (options : TransactionOptions) : TransactionNestMode :=
  match o_nestMode options with
  | Some mode => mode
  | None => defaultTransactionNestMode this
  end.

(** The normalized options and, unless the mode is [separate], the ambient
    transaction and its compatibility check. *)
Definition resolveOptions (options : TransactionOptions) : M TransactionOptions :=
  let nestMode := resolveNestMode options in
  let normalizedOptions := normalizeTransactionOptions this options in
  match nestMode with
  | separate => ret (deleteTransaction normalizedOptions)
  | _ =>
      normalizedOptions <- setTransactionFromCls normalizedOptions ;;
      match o_transaction normalizedOptions with
      | Some t =>
          lift (assertTransactionIsCompatibleWithOptions this t normalizedOptions) ;;
          ret normalizedOptions
      | None => ret normalizedOptions
      end
  end.

(** The transaction the callback will receive, and [isReusedTransaction]. *)
Definition selectTransaction (options : TransactionOptions) : M (Transaction * bool) :=
  let nestMode := resolveNestMode options in
  normalizedOptions <- resolveOptions options ;;
  transaction <-
    match nestMode, o_transaction normalizedOptions with
    | reuse, Some t => ret t
    | _, _ => newTransaction normalizedOptions
    end ;;
  let isReusedTransaction :=
    match o_transaction normalizedOptions with
    | Some t => same_object transaction t
    | None => false
    end in
  ret (transaction, isReusedTransaction).

Definition wrappedCallback {T} (callback : TransactionCallback T)
    (transaction : Transaction) (isReusedTransaction : bool) : M T :=
  if isReusedTransaction then callback transaction
  else
    prepareEnvironment transaction ;;
    result <- tryCatch (callback transaction)
                (fun error =>
                   tryCatch (rollback transaction) (fun _ => ret tt) ;;
                   throw error) ;;
    commit transaction ;;
    ret result.

Definition transaction {T}
    (optionsOrCallback : OptionsOrCallback TransactionOptions (TransactionCallback T))
    (maybeCallback : option (TransactionCallback T)) : M T :=
  let '(options, callback) :=
    parseArguments emptyOptions (fun o => o) optionsOrCallback maybeCallback in
  match callback with
  | None =>
      throw (Error "sequelize.transaction requires a callback. If you wish to start an unmanaged transaction, please use sequelize.startUnmanagedTransaction instead")
  | Some callback =>
      selected <- selectTransaction options ;;
      let '(transaction, isReusedTransaction) := selected in
      if hasTransactionCls this
      then cls_run transaction (wrappedCallback callback transaction isReusedTransaction)
      else wrappedCallback callback transaction isReusedTransaction
  end.

Definition startUnmanagedTransaction (options : TransactionOptions) : M Transaction :=
  transaction <- newTransaction options ;;
  prepareEnvironment transaction ;;
  ret transaction.

(** *** Bulk operations *)

Definition cyclicReferencesError : exn :=
  Error ("Sequelize#truncate: Some of your models have cyclic references (foreign keys). You need to use the "
         ++ dq ++ "cascade" ++ dq ++ " or " ++ dq ++ "withoutForeignKeyChecks" ++ dq
         ++ " options to be able to delete rows from models that have cyclic references.").

Definition foreignKeyChecksNotDisableableError : exn :=
  Error ("Sequelize#truncate: " ++ dialectName this
         ++ " does not support disabling foreign key checks. The "
         ++ dq ++ "withoutForeignKeyChecks" ++ dq ++ " option cannot be used.").

(** [sortedModels || this.modelManager.models] *)
Definition modelsToProcess : list ModelStatic :=
  match getModelsTopoSortedByForeignKey this with
  | Some sortedModels => sortedModels
  | None => models this
  end.

Definition opt_has (o : option JsObject) (k : string) : bool :=
  match o with
  | Some o => obj_has o k
  | None => false
  end.

Definition destroyAll (options : option JsObject) : M unit :=
  let models := modelsToProcess in
  if opt_has options "limit"
  then throw (Error "sequelize.destroyAll does not support the limit option.")
  else if opt_has options "truncate"
  then throw (Error "sequelize.destroyAll does not support the truncate option. Use sequelize.truncate instead.")
  else forEach models
         (fun model => destroy model (obj_set "where" (JObject []) (opt_spread options))).

Definition truncate (options : option JsObject) : M unit :=
  let models := modelsToProcess in
  let hasCyclicDependencies :=
    match getModelsTopoSortedByForeignKey this with None => true | Some _ => false end in
  if hasCyclicDependencies
     && negb (truthy (opt_get options "cascade"))
     && negb (truthy (opt_get options "withoutForeignKeyChecks"))
  then throw cyclicReferencesError
  else
    let withChecks : M unit :=
      if truthy (opt_get options "cascade")
      then forEach models (fun model => truncateModel model options)
      else
        promiseAllMap models (fun model => truncateModel model options) ;;
        ret tt in
    match options with
    | Some o =>
        if truthy (obj_get o "withoutForeignKeyChecks")
        then
          if negb (foreignKeyChecksDisableable this)
          then throw foreignKeyChecksNotDisableableError
          else
            withoutForeignKeyChecks this o
              (fun connection =>
                 let truncateOptions :=
                   obj_set "connection" (JHandle connection) (obj_spread [] o) in
                 promiseAllMap models
                   (fun model => truncateModel model (Some truncateOptions)) ;;
                 ret tt)
        else withChecks
    | None => withChecks
    end.

(** *** Connections *)

(** [callback(connection)], where [callback] may be [undefined]. *)
Definition invoke {T} (callback : option (SessionCallback T)) (connection : Connection) : M T :=
  match callback with
  | Some callback => callback connection
  | None => throw (TypeError "callback is not a function")
  end.

(** [{ type: 'write' }] *)
Definition writeConnection : JsObject := [("type", JString "write")].

Definition withConnection {T}
    (optionsOrCallback : OptionsOrCallback JsObject (SessionCallback T))
    (maybeCallback : option (SessionCallback T)) : M T :=
  let '(options, callback) :=
    parseArguments writeConnection (obj_spread writeConnection)
      optionsOrCallback maybeCallback in
  connection <- getConnection options ;;
  tryFinally (invoke callback connection)
    (if truthy (obj_get options "destroyConnection")
     then destroyConnection connection
     else releaseConnection connection).

End Instance.

End SequelizeTypeScript.

Export SnowflakeQueryGenerator.
Export SequelizeTypeScript.

(* ================================================================== *)
(** ** Properties stated about the code, and concrete instances *)
(* ================================================================== *)

(** An operation of the generator runs its options through the validator:
    it succeeds without options, fails with the validator's error when the
    validator rejects the supplied options, and succeeds otherwise. *)
Definition validatesSuppliedOptions (this : Context) (methodName : string)
    (supportable supported : list string)
    (operation : option JsObject -> Outcome string) : Prop :=
  (exists sql, operation None = Return sql) /\
  (forall o,
     match rejectInvalidOptions methodName (dialect_name this) supportable supported o with
     | Throw e => operation (Some o) = Throw e
     | Return _ => exists sql, operation (Some o) = Return sql
     end).

(** A property name that is in none of the given names: it is longer than
    each of them. *)
Fixpoint filler (n : nat) : string :=
  match n with
  | O => EmptyString
  | S n => String "x"%char (filler n)
  end.

Definition unknownKey (names : list string) : string :=
  filler (S (list_max (map String.length names))).

(** The world in which a managed call that owns [t] runs its
    [wrappedCallback], from the world [w] left by the construction of [t],
    and the world it leaves to its caller from the world [w'] in which
    [wrappedCallback] ended: [cls.run] installs [t] as the store and puts the
    previous store back. *)
Definition callbackWorld (this : Sequelize) (t : Transaction) (w : World) : World :=
  if hasTransactionCls this then setStore (Some t) w else w.

Definition callerWorld (this : Sequelize) (w w' : World) : World :=
  if hasTransactionCls this then setStore (clsStore w) w' else w'.

(** The world in which the callback of a managed call that owns [t] starts:
    [t] has been prepared. *)
Definition unitOfWorkWorld (this : Sequelize) (t : Transaction) (w : World) : World :=
  log (PrepareEnvironment t) (callbackWorld this t w).

(** A unit of work that is itself a managed transaction call: the outer
    callback passes its transaction [tOuter] on, and [callback tOuter] is
    the unit of work of the inner call. *)
Definition nestedUnitOfWork {T} (this : Sequelize) (innerOptions : TransactionOptions)
    (callback : Transaction -> TransactionCallback T) : TransactionCallback T :=
  fun tOuter => transaction this (IsOptions innerOptions) (Some (callback tOuter)).

(** What a managed call that owns [t] does after its callback ended with
    [r]: the call it makes, and its own outcome when the callback left the
    world [w]. *)
Definition finishEvent {T} (t : Transaction) (r : Outcome T) : Event :=
  match r with
  | Return _ => Commit t
  | Throw _ => Rollback t
  end.

Definition managedOutcome {T} (this : Sequelize) (t : Transaction) (r : Outcome T) (w : World)
    : Outcome T :=
  match r with
  | Return v =>
      match commit_outcome this t w with
      | Return _ => Return v
      | Throw e => Throw e
      end
  | Throw e => Throw e
  end.

(** How [withConnection] hands the connection [c] back, for the options it
    resolved: the call it makes, and the outcome of that call in the world
    [w] left by the callback. *)
Definition handBackEvent (options : JsObject) (c : Connection) : Event :=
  if truthy (obj_get options "destroyConnection")
  then DestroyConnection c
  else ReleaseConnection c.

Definition handBackOutcome (this : Sequelize) (options : JsObject) (c : Connection)
    (w : World) : Outcome unit :=
  if truthy (obj_get options "destroyConnection")
  then destroyConnection_outcome this c w
  else releaseConnection_outcome this c w.

(** Counting the events of a kind in a trace. *)
Definition count (p : Event -> bool) (events : list Event) : nat :=
  length (filter p events).


Definition isPrepare (e : Event) : bool :=
  match e with PrepareEnvironment _ => true | _ => false end.

Definition isCommit (e : Event) : bool :=
  match e with Commit _ => true | _ => false end.

Definition isRollback (e : Event) : bool :=
  match e with Rollback _ => true | _ => false end.

Module Samples.

(** A stand-in for the escaping of the abstract generator: strings between
    single quotes. *)
Definition sampleEscape (v : JsValue) : string :=
  match v with
  | JString s => "'" ++ s ++ "'"
  | JBool true => "true"
  | JBool false => "false"
  | _ => "NULL"
  end.

Definition sampleTableDetails (t : TableNameOrModel) : TableDetails :=
  match t with
  | TableName name => {| tableName := name; schema := "PUBLIC" |}
  | TableNameWithSchema s name => {| tableName := name; schema := s |}
  | ModelReference model => {| tableName := model; schema := "PUBLIC" |}
  end.

(** Modelled from the spec: [joinSQLFragments] (§4.1), on fragments that are
    strings without surrounding blanks: the non-empty ones, joined with a
    single space. *)
Definition sampleJoin (fragments : list string) : string :=
  String.concat " " (filter (fun f => negb (String.eqb f "")) fragments).

Definition snowflake : Context := {|
  dialect_name := "snowflake";
  escape := sampleEscape;
  quoteIdentifier := fun id => dq ++ id ++ dq;
  quoteTable := fun t =>
    dq ++ schema (sampleTableDetails t) ++ dq ++ "." ++ dq ++ tableName (sampleTableDetails t) ++ dq;
  extractTableDetails := sampleTableDetails;
  getTechnicalSchemaNames := ["INFORMATION_SCHEMA"; "PERFORMANCE_SCHEMA"; "SYS"];
  joinSQLFragments := sampleJoin;
  CREATE_DATABASE_QUERY_SUPPORTABLE_OPTIONS :=
    ["charset"; "collate"; "ctype"; "encoding"; "template"];
  LIST_DATABASES_QUERY_SUPPORTABLE_OPTIONS := ["skip"];
  SHOW_CONSTRAINTS_QUERY_SUPPORTABLE_OPTIONS :=
    ["columnName"; "constraintName"; "constraintType"];
  TRUNCATE_TABLE_QUERY_SUPPORTABLE_OPTIONS := ["cascade"; "restartIdentity"]
|}.

Definition failWhen (b : bool) (message : string) : Outcome unit :=
  if b then Throw (Error message) else Return tt.

(** An instance whose collaborators succeed, except the ones told to fail. *)
Definition instance (cls : bool) (defaultMode : TransactionNestMode)
    (sorted : option (list ModelStatic)) (fkDisableable : bool)
    (rollbackFails destroyConnectionFails : bool) : Sequelize := {|
  defaultTransactionNestMode := defaultMode;
  hasTransactionCls := cls;
  dialectName := "snowflake";
  foreignKeyChecksDisableable := fkDisableable;
  models := ["User"; "Post"];
  getModelsTopoSortedByForeignKey := sorted;
  normalizeTransactionOptions := fun o => o;
  assertTransactionIsCompatibleWithOptions := fun _ _ => Return tt;
  prepareEnvironment_outcome := fun _ _ => Return tt;
  commit_outcome := fun _ _ => Return tt;
  rollback_outcome := fun _ _ => failWhen rollbackFails "rollback failed";
  getConnection_outcome := fun _ w => Return (nextObjectId w);
  releaseConnection_completion := fun _ _ => Completed (Return tt);
  destroyConnection_outcome := fun _ _ => failWhen destroyConnectionFails "socket closed";
  destroy_outcome := fun _ _ _ => Return tt;
  truncate_outcome := fun _ _ _ => Return tt;
  withoutForeignKeyChecks := fun _ callback => callback 0
|}.

(** Units of work: one that fails, and one that tells whether the inner call
    received the transaction of the outer call. *)
Definition failingWork : TransactionCallback nat :=
  fun _ => throw (Error "insert failed").

Definition compareWork : Transaction -> TransactionCallback bool :=
  fun tOuter tInner => ret (same_object tOuter tInner).

Definition emptyWorld : World :=
  {| nextObjectId := 0; clsStore := None; trace := [] |}.

Definition withMode (mode : TransactionNestMode) : TransactionOptions :=
  {| o_nestMode := Some mode; o_transaction := None; o_settings := [] |}.

Definition healthy : Sequelize := instance true reuse (Some ["Post"; "User"]) true false false.
Definition rollbackFailing : Sequelize := instance true reuse None true true false.
Definition withoutToggle : Sequelize :=
  instance true reuse (Some ["Post"; "User"]) false false false.
Definition destroyFailing : Sequelize :=
  instance true reuse (Some ["Post"; "User"]) true false true.

(** The first two transaction objects constructed from [emptyWorld]. *)
Definition t0 : Transaction := {| txId := 0; txParent := None; txOptions := [] |}.
Definition t1 : Transaction := {| txId := 1; txParent := None; txOptions := [] |}.

End Samples.

(** The world after a sequence of recorded calls. *)
Definition logAll (events : list Event) (w : World) : World :=
  fold_left (fun w' e => log e w') events w.




(** A unit of work that reports the transaction it was given together with
    what [getCurrentClsTransaction] returns while it runs. *)
Definition observeAmbient (this : Sequelize)
    : TransactionCallback (Transaction * option Transaction) :=
  fun t w => (Return (t, getCurrentClsTransaction this w), w).

(** A session callback that reports the connection it was given. *)
Definition observeConnection : SessionCallback Connection :=
  fun c => ret c.

Module Faults.

(** An instance in which chosen collaborators fail: the compatibility check,
    prepareEnvironment, commit, getConnection, and the destroy and truncate
    of one model. *)
Definition instance (cls : bool) (defaultMode : TransactionNestMode)
    (sorted : option (list ModelStatic))
    (incompatible prepareFails commitFails getConnectionFails : bool)
    (failingModel : string) : Sequelize := {|
  defaultTransactionNestMode := defaultMode;
  hasTransactionCls := cls;
  dialectName := "snowflake";
  foreignKeyChecksDisableable := true;
  models := ["User"; "Post"; "Comment"];
  getModelsTopoSortedByForeignKey := sorted;
  normalizeTransactionOptions := fun o => o;
  assertTransactionIsCompatibleWithOptions :=
    fun _ _ => Samples.failWhen incompatible "isolation level mismatch";
  prepareEnvironment_outcome := fun _ _ => Samples.failWhen prepareFails "no connection";
  commit_outcome := fun _ _ => Samples.failWhen commitFails "commit failed";
  rollback_outcome := fun _ _ => Return tt;
  getConnection_outcome :=
    fun _ w => if getConnectionFails then Throw (Error "pool exhausted")
               else Return (nextObjectId w);
  releaseConnection_completion := fun _ _ => Completed (Return tt);
  destroyConnection_outcome := fun _ _ => Return tt;
  destroy_outcome :=
    fun model _ _ => Samples.failWhen (String.eqb model failingModel) "row is referenced";
  truncate_outcome :=
    fun model _ _ => Samples.failWhen (String.eqb model failingModel) "table is referenced";
  withoutForeignKeyChecks := fun _ callback => callback 0
|}.

Definition sound : Sequelize := instance true reuse (Some ["Comment"; "Post"; "User"]) false false false false "".
Definition withoutCls : Sequelize := instance false reuse None false false false false "".
Definition incompatible : Sequelize := instance true reuse None true false false false "".
Definition unprepared : Sequelize := instance true reuse None false true false false "".
Definition uncommitted : Sequelize := instance true reuse None false false true false "".
Definition exhausted : Sequelize := instance true reuse None false false false true "".
Definition referenced : Sequelize :=
  instance true reuse (Some ["Comment"; "Post"; "User"]) false false false false "Post".
Definition cyclicGraph : Sequelize := instance true reuse None false false false false "".

(** An instance whose [releaseConnection] is asynchronous and rejects. *)
Definition lateRelease : Sequelize := {|
  defaultTransactionNestMode := reuse;
  hasTransactionCls := true;
  dialectName := "snowflake";
  foreignKeyChecksDisableable := true;
  models := ["User"; "Post"; "Comment"];
  getModelsTopoSortedByForeignKey := None;
  normalizeTransactionOptions := fun o => o;
  assertTransactionIsCompatibleWithOptions := fun _ _ => Return tt;
  prepareEnvironment_outcome := fun _ _ => Return tt;
  commit_outcome := fun _ _ => Return tt;
  rollback_outcome := fun _ _ => Return tt;
  getConnection_outcome := fun _ w => Return (nextObjectId w);
  releaseConnection_completion := fun _ _ => Promised (Throw (Error "release failed"));
  destroyConnection_outcome := fun _ _ => Return tt;
  destroy_outcome := fun _ _ _ => Return tt;
  truncate_outcome := fun _ _ _ => Return tt;
  withoutForeignKeyChecks := fun _ callback => callback 0
|}.

(** A unit of work that returns 7, and one that records a destroy of its own
    before it returns. *)
Definition work : TransactionCallback nat := fun _ => ret 7.

Definition pairWork : Transaction -> TransactionCallback (nat * nat) :=
  fun tOuter tInner => ret (txId tOuter, txId tInner).

End Faults.

(** Case analysis on the scrutinee of a [match] of the goal. *)
Ltac break_match :=
  match goal with
  | |- context [match ?x with _ => _ end] => destruct x eqn:?; simpl
  end.

(* ================================================================== *)
(** ** The query generator: option validation *)
(* ================================================================== *)

Section ValidationFacts.

Variable this : Context.

Lemma validateIfSupplied_absent methodName supportable supported :
  validateIfSupplied this methodName supportable supported None = Return tt.
Proof. reflexivity. Qed.

(** Any operation built as "validate, then compose" has the property. *)
Lemma validate_then_compose methodName supportable supported (sql : option JsObject -> string) :
  validatesSuppliedOptions this methodName supportable supported
    (fun options =>
       andThen (validateIfSupplied this methodName supportable supported options)
         (fun _ => Return (sql options))).
Proof.
  split.
  - exists (sql None). reflexivity.
  - intros o. simpl.
    destruct (rejectInvalidOptions methodName (dialect_name this) supportable supported o)
      as [[] | e]; simpl.
    + exists (sql (Some o)). reflexivity.
    + reflexivity.
Qed.

Lemma filler_length n : String.length (filler n) = n.
Proof. induction n as [| n IH]; simpl; [reflexivity | now rewrite IH]. Qed.

Lemma unknownKey_not_in names : set_has names (unknownKey names) = false.
Proof.
  unfold set_has. apply not_true_is_false. intros H.
  apply existsb_exists in H. destruct H as [name [Hin Heq]].
  apply String.eqb_eq in Heq.
  assert (Hlen : String.length name <= list_max (map String.length names)).
  { assert (Hall : Forall (fun k => k <= list_max (map String.length names))
                     (map String.length names)).
    { apply list_max_le. apply Nat.le_refl. }
    rewrite Forall_forall in Hall. apply Hall. apply in_map. exact Hin. }
  rewrite <- Heq in Hlen. unfold unknownKey in Hlen.
  rewrite filler_length in Hlen. lia.
Qed.

(** The validator accepts a bag whose keys are all supported. *)
Lemma rejectInvalidOptions_accepts methodName supportable supported (o : JsObject) :
  (forall k, In k (keys o) -> set_has supported k = true) ->
  rejectInvalidOptions methodName (dialect_name this) supportable supported o = Return tt.
Proof.
  unfold rejectInvalidOptions. generalize (keys o) as ks.
  induction ks as [| k rest IH]; intros Hall; simpl.
  - reflexivity.
  - rewrite (Hall k (or_introl eq_refl)). apply IH.
    intros k' Hin. apply Hall. right. exact Hin.
Qed.

(** The validator rejects a bag holding a key outside the supported set,
    whatever the sets. *)
Lemma rejectInvalidOptions_unknownKey methodName supportable supported :
  is_throw (rejectInvalidOptions methodName (dialect_name this) supportable supported
              [(unknownKey supported, JBool true)]) = true.
Proof.
  unfold rejectInvalidOptions. simpl.
  rewrite unknownKey_not_in.
  destruct (set_has supportable (unknownKey supported)); reflexivity.
Qed.

(** An operation that returns SQL for every option bag does not validate. *)
Lemma total_operation_does_not_validate methodName supportable supported
    (sql : option JsObject -> string) :
  ~ validatesSuppliedOptions this methodName supportable supported
      (fun options => Return (sql options)).
Proof.
  intros [_ H].
  specialize (H [(unknownKey supported, JBool true)]).
  pose proof (rejectInvalidOptions_unknownKey methodName supportable supported) as Hthrow.
  destruct (rejectInvalidOptions methodName (dialect_name this) supportable supported
              [(unknownKey supported, JBool true)]) as [[] | e].
  - discriminate Hthrow.
  - discriminate H.
Qed.

(** C3 (amended): the operations for which supportable and supported option
    sets are declared -- createDatabaseQuery, listDatabasesQuery,
    truncateTableQuery and showConstraintsQuery -- succeed when no options
    are given, fail with the validator's error, before any SQL is returned,
    when rejectInvalidOptions rejects the supplied options, and return SQL
    otherwise.  listSchemasQuery and listTablesQuery never call the
    validator: whatever the operation name and option sets, they return SQL
    for a bag that the validator rejects. *)
Theorem options_validated_where_option_sets_are_declared
    (database : string) (table : TableNameOrModel) :
  validatesSuppliedOptions this "createDatabaseQuery"
    (CREATE_DATABASE_QUERY_SUPPORTABLE_OPTIONS this)
    CREATE_DATABASE_QUERY_SUPPORTED_OPTIONS
    (createDatabaseQuery this database)
  /\ validatesSuppliedOptions this "listDatabasesQuery"
       (LIST_DATABASES_QUERY_SUPPORTABLE_OPTIONS this)
       LIST_DATABASES_QUERY_SUPPORTED_OPTIONS
       (listDatabasesQuery this)
  /\ validatesSuppliedOptions this "truncateTableQuery"
       (TRUNCATE_TABLE_QUERY_SUPPORTABLE_OPTIONS this)
       TRUNCATE_TABLE_QUERY_SUPPORTED_OPTIONS
       (truncateTableQuery this table)
  /\ validatesSuppliedOptions this "showConstraintsQuery"
       (SHOW_CONSTRAINTS_QUERY_SUPPORTABLE_OPTIONS this)
       SHOW_CONSTRAINTS_QUERY_SUPPORTED_OPTIONS
       (showConstraintsQuery this table)
  /\ (forall methodName supportable supported,
        ~ validatesSuppliedOptions this methodName supportable supported
            (fun options => Return (listSchemasQuery this options)))
  /\ (forall methodName supportable supported,
        ~ validatesSuppliedOptions this methodName supportable supported
            (fun options => Return (listTablesQuery this options))).
Proof.
  repeat split.
  - exists (joinSQLFragments this
              ["CREATE DATABASE IF NOT EXISTS " ++ quoteIdentifier this database]).
    reflexivity.
  - apply (validate_then_compose "createDatabaseQuery" _ _
             (fun _ => joinSQLFragments this
                ["CREATE DATABASE IF NOT EXISTS " ++ quoteIdentifier this database])).
  - exists "SHOW DATABASES". reflexivity.
  - apply (validate_then_compose "listDatabasesQuery" _ _ (fun _ => "SHOW DATABASES")).
  - exists ("TRUNCATE " ++ quoteTable this table). reflexivity.
  - apply (validate_then_compose "truncateTableQuery" _ _
             (fun _ => "TRUNCATE " ++ quoteTable this table)).
  - eexists. reflexivity.
  - intros o. unfold showConstraintsQuery. simpl.
    destruct (rejectInvalidOptions "showConstraintsQuery" (dialect_name this)
                (SHOW_CONSTRAINTS_QUERY_SUPPORTABLE_OPTIONS this)
                SHOW_CONSTRAINTS_QUERY_SUPPORTED_OPTIONS o) as [[] | e]; simpl.
    + eexists. reflexivity.
    + reflexivity.
  - intros methodName supportable supported.
    apply (total_operation_does_not_validate methodName supportable supported
             (listSchemasQuery this)).
  - intros methodName supportable supported.
    apply (total_operation_does_not_validate methodName supportable supported
             (listTablesQuery this)).
Qed.

End ValidationFacts.

(** C3 (as stated) fails on the code: listTablesQuery and listSchemasQuery
    return SQL for the bag [{ unknownOption: true }], which the validator
    rejects; no choice of option sets makes either of them a validated
    operation. *)
Lemma listTablesQuery_listSchemasQuery_skip_validation :
  rejectInvalidOptions "listTablesQuery" "snowflake" ["schema"] ["schema"]
      [("unknownOption", JBool true)]
    = Throw (UnknownOptionError "listTablesQuery" "unknownOption")
  /\ listTablesQuery Samples.snowflake (Some [("unknownOption", JBool true)])
     = "SELECT TABLE_NAME AS " ++ dq ++ "tableName" ++ dq ++ ", TABLE_SCHEMA AS " ++ dq ++ "schema" ++ dq
       ++ " FROM INFORMATION_SCHEMA.TABLES WHERE TABLE_TYPE = 'BASE TABLE' AND TABLE_SCHEMA NOT IN ('INFORMATION_SCHEMA', 'PERFORMANCE_SCHEMA', 'SYS') ORDER BY TABLE_SCHEMA, TABLE_NAME"
  /\ rejectInvalidOptions "listSchemasQuery" "snowflake" ["skip"] ["skip"]
       [("unknownOption", JBool true)]
     = Throw (UnknownOptionError "listSchemasQuery" "unknownOption")
  /\ listSchemasQuery Samples.snowflake (Some [("unknownOption", JBool true)])
     = "SELECT SCHEMA_NAME AS " ++ dq ++ "schema" ++ dq
       ++ " FROM INFORMATION_SCHEMA.SCHEMATA WHERE SCHEMA_NAME NOT IN ('INFORMATION_SCHEMA', 'PERFORMANCE_SCHEMA', 'SYS')"
  /\ ~ (exists supportable supported,
          validatesSuppliedOptions Samples.snowflake "listTablesQuery" supportable supported
            (fun options => Return (listTablesQuery Samples.snowflake options)))
  /\ ~ (exists supportable supported,
          validatesSuppliedOptions Samples.snowflake "listSchemasQuery" supportable supported
            (fun options => Return (listSchemasQuery Samples.snowflake options))).
Proof.
  repeat split; try reflexivity.
  - intros [supportable [supported H]].
    exact (total_operation_does_not_validate Samples.snowflake _ _ _ _ H).
  - intros [supportable [supported H]].
    exact (total_operation_does_not_validate Samples.snowflake _ _ _ _ H).
Qed.

(* ================================================================== *)
(** ** The query generator: the statements of listTablesQuery and
       showConstraintsQuery *)
(* ================================================================== *)

Section StatementFacts.

Variable this : Context.

Lemma schemaFilter_is_not_the_exclusion (schema : JsValue) :
  schemaFilter this schema <> technicalSchemaExclusion this.
Proof.
  unfold schemaFilter, technicalSchemaExclusion. simpl. intros H. discriminate H.
Qed.

(** C7 (amended): for every input, listTablesQuery is the join of the
    fragments selecting TABLE_NAME as tableName and TABLE_SCHEMA as schema,
    one schema predicate, and the ordering by TABLE_SCHEMA, TABLE_NAME.
    When options.schema is truthy (a non-empty string) the predicate is the
    equality with that schema, and the technical-schema exclusion is not a
    fragment of the statement; when options.schema is absent or empty, the
    predicate excludes the dialect's technical schemas. *)
Theorem listTablesQuery_statement (options : option JsObject) :
  listTablesQuery this options = joinSQLFragments this (listTablesFragments this options)
  /\ firstn 2 (listTablesFragments this options)
     = ["SELECT TABLE_NAME AS " ++ dq ++ "tableName" ++ dq ++ ",";
        "TABLE_SCHEMA AS " ++ dq ++ "schema" ++ dq]
  /\ last (listTablesFragments this options) "" = "ORDER BY TABLE_SCHEMA, TABLE_NAME"
  /\ (truthy (opt_get options "schema") = true ->
      listTablesFragments this options
        = List.app listTablesSelect
            ["AND TABLE_SCHEMA = " ++ escape this (opt_get options "schema");
             "ORDER BY TABLE_SCHEMA, TABLE_NAME"]
      /\ ~ In (technicalSchemaExclusion this) (listTablesFragments this options))
  /\ (truthy (opt_get options "schema") = false ->
      listTablesFragments this options
        = List.app listTablesSelect
            ["AND TABLE_SCHEMA NOT IN ("
               ++ String.concat ", "
                    (map (fun schema => escape this (JString schema))
                       (getTechnicalSchemaNames this))
               ++ ")";
             "ORDER BY TABLE_SCHEMA, TABLE_NAME"]).
Proof.
  split; [reflexivity |]. split; [reflexivity |]. split; [reflexivity |].
  unfold listTablesFragments. split; intros Hschema; rewrite Hschema.
  - split; [reflexivity |].
    unfold technicalSchemaExclusion, schemaFilter. simpl.
    intros [H | [H | [H | [H | [H | []]]]]]; discriminate H.
  - reflexivity.
Qed.

(** C8 (amended): for every table reference, and options that are absent or
    pass rejectInvalidOptions, showConstraintsQuery is the join of the
    selected columns (among them the referenced table's schema and name and
    the delete and update rules), the equalities on the resolved table's
    name and schema, an equality on the constraint name when
    options.constraintName is truthy (a non-empty string) and the empty
    fragment otherwise, the same for options.constraintType, and the
    ordering by c.CONSTRAINT_NAME. *)
Theorem showConstraintsQuery_statement (table : TableNameOrModel) (options : option JsObject) :
  validateIfSupplied this "showConstraintsQuery"
    (SHOW_CONSTRAINTS_QUERY_SUPPORTABLE_OPTIONS this)
    SHOW_CONSTRAINTS_QUERY_SUPPORTED_OPTIONS options = Return tt ->
  showConstraintsQuery this table options
    = Return (joinSQLFragments this
                (showConstraintsFragments this (extractTableDetails this table) options))
  /\ (exists nameFilter typeFilter,
        showConstraintsFragments this (extractTableDetails this table) options
          = List.app showConstraintsSelect
              ["WHERE c.TABLE_NAME = "
                 ++ escape this (JString (tableName (extractTableDetails this table)));
               "AND c.TABLE_SCHEMA = "
                 ++ escape this (JString (schema (extractTableDetails this table)));
               nameFilter;
               typeFilter;
               "ORDER BY c.CONSTRAINT_NAME"]
        /\ nameFilter
           = (if truthy (opt_get options "constraintName")
              then "AND c.CONSTRAINT_NAME = " ++ escape this (opt_get options "constraintName")
              else "")
        /\ typeFilter
           = (if truthy (opt_get options "constraintType")
              then "AND c.CONSTRAINT_TYPE = " ++ escape this (opt_get options "constraintType")
              else ""))
  /\ last (showConstraintsFragments this (extractTableDetails this table) options) ""
     = "ORDER BY c.CONSTRAINT_NAME"
  /\ In "fk.TABLE_SCHEMA AS referencedTableSchema," showConstraintsSelect
  /\ In "fk.TABLE_NAME AS referencedTableName," showConstraintsSelect
  /\ In "r.DELETE_RULE AS deleteAction," showConstraintsSelect
  /\ In "r.UPDATE_RULE AS updateAction," showConstraintsSelect.
Proof.
  intros Hvalid. split.
  - unfold showConstraintsQuery. rewrite Hvalid. reflexivity.
  - split.
    + eexists. eexists. split; [reflexivity |]. split; reflexivity.
    + split; [reflexivity |]. unfold showConstraintsSelect. simpl. tauto.
Qed.

(** A rejected bag never reaches the composition of the statement. *)
Lemma showConstraintsQuery_rejected (table : TableNameOrModel) (o : JsObject) (e : exn) :
  rejectInvalidOptions "showConstraintsQuery" (dialect_name this)
    (SHOW_CONSTRAINTS_QUERY_SUPPORTABLE_OPTIONS this)
    SHOW_CONSTRAINTS_QUERY_SUPPORTED_OPTIONS o = Throw e ->
  showConstraintsQuery this table (Some o) = Throw e.
Proof.
  intros H. unfold showConstraintsQuery. simpl. rewrite H. reflexivity.
Qed.

End StatementFacts.

(** C7 (as stated) fails on the code: with [{ schema: '' }] the schema is
    given, and the statement excludes the technical schemas instead of
    filtering to that schema. *)
Lemma listTablesQuery_empty_schema_is_not_filtered :
  listTablesQuery Samples.snowflake (Some [("schema", JString "")])
    = "SELECT TABLE_NAME AS " ++ dq ++ "tableName" ++ dq ++ ", TABLE_SCHEMA AS " ++ dq ++ "schema" ++ dq
      ++ " FROM INFORMATION_SCHEMA.TABLES WHERE TABLE_TYPE = 'BASE TABLE' AND TABLE_SCHEMA NOT IN ('INFORMATION_SCHEMA', 'PERFORMANCE_SCHEMA', 'SYS') ORDER BY TABLE_SCHEMA, TABLE_NAME"
  /\ ~ (forall options s,
          opt_get options "schema" = JString s ->
          listTablesFragments Samples.snowflake options
            = List.app listTablesSelect
                [schemaFilter Samples.snowflake (JString s);
                 "ORDER BY TABLE_SCHEMA, TABLE_NAME"]
          /\ ~ In (technicalSchemaExclusion Samples.snowflake)
                 (listTablesFragments Samples.snowflake options)).
Proof.
  split; [reflexivity |].
  intros H.
  destruct (H (Some [("schema", JString "")]) "" eq_refl) as [Heq _].
  vm_compute in Heq. discriminate Heq.
Qed.

(** The statement for [{ schema: 'APP' }]. *)
Example listTablesQuery_APP :
  listTablesQuery Samples.snowflake (Some [("schema", JString "APP")])
  = "SELECT TABLE_NAME AS " ++ dq ++ "tableName" ++ dq ++ ", TABLE_SCHEMA AS " ++ dq ++ "schema" ++ dq
    ++ " FROM INFORMATION_SCHEMA.TABLES WHERE TABLE_TYPE = 'BASE TABLE' AND TABLE_SCHEMA = 'APP' ORDER BY TABLE_SCHEMA, TABLE_NAME".
Proof. reflexivity. Qed.

(** C8 (as stated) fails on the code: with [{ constraintName: '' }] the name
    is supplied and no predicate on it is composed, and with
    [{ columnName: 'id' }], an option of the abstract contract, no statement
    is produced at all. *)
Lemma showConstraintsQuery_empty_name_or_rejected_option :
  ~ (forall table options s,
       opt_get options "constraintName" = JString s ->
       In ("AND c.CONSTRAINT_NAME = " ++ escape Samples.snowflake (JString s))
          (showConstraintsFragments Samples.snowflake
             (extractTableDetails Samples.snowflake table) options))
  /\ showConstraintsQuery Samples.snowflake (TableName "users")
       (Some [("columnName", JString "id")])
     = Throw (DialectNotSupportedError "showConstraintsQuery" "snowflake" "columnName").
Proof.
  split; [| reflexivity].
  intros H.
  specialize (H (TableName "users") (Some [("constraintName", JString "")]) "" eq_refl).
  vm_compute in H.
  repeat (destruct H as [H | H]; [discriminate H |]).
  exact H.
Qed.

(** The theorem at [showConstraintsQuery(APP.users, { constraintName: 'PK_1' })]. *)
Lemma showConstraintsQuery_statement_PK_1 :
  showConstraintsQuery Samples.snowflake (TableNameWithSchema "APP" "users")
    (Some [("constraintName", JString "PK_1")])
  = Return (joinSQLFragments Samples.snowflake
              (showConstraintsFragments Samples.snowflake
                 (extractTableDetails Samples.snowflake (TableNameWithSchema "APP" "users"))
                 (Some [("constraintName", JString "PK_1")]))).
Proof.
  exact (proj1 (showConstraintsQuery_statement Samples.snowflake
                  (TableNameWithSchema "APP" "users")
                  (Some [("constraintName", JString "PK_1")]) eq_refl)).
Defined.

Example showConstraintsQuery_PK_1_tail :
  exists head,
    showConstraintsQuery Samples.snowflake (TableNameWithSchema "APP" "users")
      (Some [("constraintName", JString "PK_1")])
    = Return (head ++ " WHERE c.TABLE_NAME = 'users' AND c.TABLE_SCHEMA = 'APP' AND c.CONSTRAINT_NAME = 'PK_1' ORDER BY c.CONSTRAINT_NAME").
Proof.
  exists (Samples.sampleJoin showConstraintsSelect). reflexivity.
Qed.

(* ================================================================== *)
(** ** Managed transactions *)
(* ================================================================== *)

Section TransactionFacts.

Local Open Scope list_scope.

Variable this : Sequelize.

Lemma resolveOptions_keeps_world options w :
  snd (resolveOptions this options w) = w.
Proof.
  assert (Hset : forall n, snd (setTransactionFromCls this n w) = w).
  { intros n. unfold setTransactionFromCls. repeat break_match; reflexivity. }
  unfold resolveOptions, bind.
  destruct (resolveNestMode this options); try reflexivity;
    specialize (Hset (normalizeTransactionOptions this options));
    destruct (setTransactionFromCls this (normalizeTransactionOptions this options) w)
      as [[n | e] w0];
    simpl in Hset; subst w0; try reflexivity;
    unfold lift, ret; repeat break_match; reflexivity.
Qed.

(** A call that does not reuse a transaction has constructed the one it
    hands to its callback. *)
Lemma selectTransaction_created options w t w1 :
  selectTransaction this options w = (Return (t, false), w1) ->
  txId t = nextObjectId w /\ w1 = register t w.
Proof.
  unfold selectTransaction, bind.
  pose proof (resolveOptions_keeps_world options w) as Hw.
  destruct (resolveOptions this options w) as [[n | e] w0]; simpl in Hw; subst w0;
    [| discriminate].
  destruct (resolveNestMode this options); destruct (o_transaction n) as [t' |];
    unfold newTransaction, ret; simpl; intros H; inversion H; subst; clear H;
    try (split; reflexivity).
  unfold same_object in *. rewrite Nat.eqb_refl in *. discriminate.
Qed.

(** A managed call that owns its transaction [t]: it prepares [t], runs the
    callback on [t], then commits or rolls back, once. *)
Lemma managed_run {T} optionsOrCallback maybeCallback options
    (callback : TransactionCallback T) w w1 w3 t r :
  parseArguments emptyOptions (fun o => o) optionsOrCallback maybeCallback
    = (options, Some callback) ->
  selectTransaction this options w = (Return (t, false), w1) ->
  prepareEnvironment_outcome this t (callbackWorld this t w1) = Return tt ->
  callback t (log (PrepareEnvironment t) (callbackWorld this t w1)) = (r, w3) ->
  transaction this optionsOrCallback maybeCallback w
    = (managedOutcome this t r w3, callerWorld this w1 (log (finishEvent t r) w3)).
Proof.
  intros Hargs Hsel Hprep Hcb.
  unfold transaction. rewrite Hargs. unfold bind at 1. rewrite Hsel.
  unfold callbackWorld, callerWorld in *.
  destruct (hasTransactionCls this);
    unfold cls_run, wrappedCallback, bind, tryCatch, prepareEnvironment, commit, rollback,
      call, throw, ret;
    rewrite Hprep, Hcb; destruct r as [v | e]; simpl.
  - destruct (commit_outcome this t w3); reflexivity.
  - destruct (rollback_outcome this t w3); reflexivity.
  - destruct (commit_outcome this t w3); reflexivity.
  - destruct (rollback_outcome this t w3); reflexivity.
Qed.

(** C1: when the callback of a managed transaction that owns its
    transaction throws E1 and the rollback that follows throws E2, the call
    throws E1; the rollback was attempted and nothing was committed. *)
Theorem rollback_failure_is_suppressed {T} optionsOrCallback maybeCallback options
    (callback : TransactionCallback T) (w w1 w3 : World) (t : Transaction) (E1 E2 : exn) :
  parseArguments emptyOptions (fun o => o) optionsOrCallback maybeCallback
    = (options, Some callback) ->
  selectTransaction this options w = (Return (t, false), w1) ->
  prepareEnvironment_outcome this t (callbackWorld this t w1) = Return tt ->
  callback t (log (PrepareEnvironment t) (callbackWorld this t w1)) = (Throw E1, w3) ->
  rollback_outcome this t w3 = Throw E2 ->
  fst (transaction this optionsOrCallback maybeCallback w) = Throw E1
  /\ trace (snd (transaction this optionsOrCallback maybeCallback w))
     = trace w3 ++ [Rollback t].
Proof.
  intros Hargs Hsel Hprep Hcb _.
  rewrite (managed_run _ _ _ _ _ _ _ _ _ Hargs Hsel Hprep Hcb). simpl.
  split; [reflexivity |].
  unfold callerWorld. destruct (hasTransactionCls this); reflexivity.
Qed.

(** Under [reuse], with an ambient transaction that passes the compatibility
    check, a call is its callback run on the ambient transaction. *)
Lemma reuse_runs_callback_on_ambient {T} options (callback : TransactionCallback T) w t :
  hasTransactionCls this = true ->
  clsStore w = Some t ->
  resolveNestMode this options = reuse ->
  o_transaction (normalizeTransactionOptions this options) = None ->
  assertTransactionIsCompatibleWithOptions this t
    (withTransaction t (normalizeTransactionOptions this options)) = Return tt ->
  transaction this (IsOptions options) (Some callback) w = cls_run t (callback t) w.
Proof.
  intros Hcls Hstore Hmode Hnone Hcompat.
  unfold transaction, parseArguments, bind, selectTransaction, bind, resolveOptions.
  rewrite Hmode. unfold bind, setTransactionFromCls, getCurrentClsTransaction.
  rewrite Hnone, Hcls, Hstore. simpl. unfold lift. rewrite Hcompat. simpl.
  unfold same_object. rewrite Nat.eqb_refl. reflexivity.
Qed.

(** Under [separate] a call constructs its transaction, bound to no parent,
    whatever the ambient transaction. *)
Lemma separate_constructs options w :
  resolveNestMode this options = separate ->
  selectTransaction this options w
  = (Return (constructed (deleteTransaction (normalizeTransactionOptions this options)) w, false),
     register (constructed (deleteTransaction (normalizeTransactionOptions this options)) w) w).
Proof.
  intros Hmode. unfold selectTransaction, bind, resolveOptions. rewrite Hmode. reflexivity.
Qed.

(** C2: with the ambient store in use, let a managed call that owns its
    transaction t run, as its unit of work, a managed call whose nest mode
    is reuse, whose options name no transaction and are compatible with t.
    Then the inner callback is run on t itself, right after the outer call
    has constructed and prepared t: the inner call constructs, prepares,
    commits and rolls back nothing.  When the inner callback ends, one
    commit of t (or one rollback, if the callback threw) is made, by the
    outer call. *)
Theorem reuse_nested_call_shares_the_outer_transaction {T}
    (outerOptions innerOptions : TransactionOptions)
    (callback : Transaction -> TransactionCallback T)
    (w w1 w3 : World) (t : Transaction) (r : Outcome T) :
  hasTransactionCls this = true ->
  selectTransaction this outerOptions w = (Return (t, false), w1) ->
  prepareEnvironment_outcome this t (callbackWorld this t w1) = Return tt ->
  resolveNestMode this innerOptions = reuse ->
  o_transaction (normalizeTransactionOptions this innerOptions) = None ->
  assertTransactionIsCompatibleWithOptions this t
    (withTransaction t (normalizeTransactionOptions this innerOptions)) = Return tt ->
  callback t t (unitOfWorkWorld this t w1) = (r, w3) ->
  trace (unitOfWorkWorld this t w1) = trace w ++ [NewTransaction t; PrepareEnvironment t]
  /\ trace (snd (transaction this (IsOptions outerOptions)
                   (Some (nestedUnitOfWork this innerOptions callback)) w))
     = trace w3 ++ [finishEvent t r]
  /\ fst (transaction this (IsOptions outerOptions)
            (Some (nestedUnitOfWork this innerOptions callback)) w)
     = managedOutcome this t r (setStore (Some t) w3).
Proof.
  intros Hcls Hsel Hprep Hmode Hnone Hcompat Hcb.
  destruct (selectTransaction_created _ _ _ _ Hsel) as [_ Hw1].
  assert (Hinner : nestedUnitOfWork this innerOptions callback t
                     (log (PrepareEnvironment t) (callbackWorld this t w1))
                   = (r, setStore (Some t) w3)).
  { unfold nestedUnitOfWork.
    rewrite (reuse_runs_callback_on_ambient innerOptions (callback t) _ t Hcls);
      try assumption.
    - unfold cls_run. unfold unitOfWorkWorld, callbackWorld in Hcb.
      unfold callbackWorld. rewrite Hcls in *. simpl in *.
      unfold log, setStore in *. simpl in *. rewrite Hcb. reflexivity.
    - unfold callbackWorld. rewrite Hcls. reflexivity. }
  rewrite (managed_run (IsOptions outerOptions) _ outerOptions _ w w1 _ t r
             eq_refl Hsel Hprep Hinner).
  simpl. unfold unitOfWorkWorld, callbackWorld, callerWorld. rewrite Hcls. simpl.
  subst w1. simpl. rewrite <- app_assoc. simpl. repeat split; reflexivity.
Qed.

(** C6: let a managed call that owns its transaction t run, as its unit of
    work, a managed call whose nest mode is separate.  The inner call
    constructs a transaction t2 of its own, another object than t and bound
    to no parent, prepares it, runs its callback on it and commits it (or
    rolls it back, if the callback threw) before the outer call commits or
    rolls back t. *)
Theorem separate_nested_call_owns_a_new_transaction {T}
    (outerOptions innerOptions : TransactionOptions)
    (callback : Transaction -> TransactionCallback T)
    (w w1 w5 : World) (t t2 : Transaction) (r : Outcome T) :
  selectTransaction this outerOptions w = (Return (t, false), w1) ->
  prepareEnvironment_outcome this t (callbackWorld this t w1) = Return tt ->
  resolveNestMode this innerOptions = separate ->
  t2 = constructed (deleteTransaction (normalizeTransactionOptions this innerOptions))
         (unitOfWorkWorld this t w1) ->
  prepareEnvironment_outcome this t2
    (callbackWorld this t2 (register t2 (unitOfWorkWorld this t w1))) = Return tt ->
  callback t t2 (unitOfWorkWorld this t2 (register t2 (unitOfWorkWorld this t w1))) = (r, w5) ->
  same_object t2 t = false
  /\ txParent t2 = None
  /\ trace (unitOfWorkWorld this t2 (register t2 (unitOfWorkWorld this t w1)))
     = trace w ++ [NewTransaction t; PrepareEnvironment t;
                   NewTransaction t2; PrepareEnvironment t2]
  /\ trace (snd (transaction this (IsOptions outerOptions)
                   (Some (nestedUnitOfWork this innerOptions callback)) w))
     = trace w5 ++ [finishEvent t2 r; finishEvent t (managedOutcome this t2 r w5)]
  /\ fst (transaction this (IsOptions outerOptions)
            (Some (nestedUnitOfWork this innerOptions callback)) w)
     = managedOutcome this t (managedOutcome this t2 r w5)
         (callerWorld this (register t2 (unitOfWorkWorld this t w1))
            (log (finishEvent t2 r) w5)).
Proof.
  intros Hsel Hprep Hmode Ht2 Hprep2 Hcb.
  destruct (selectTransaction_created _ _ _ _ Hsel) as [Hid Hw1].
  pose proof (separate_constructs innerOptions (unitOfWorkWorld this t w1) Hmode) as Hsel2.
  rewrite <- Ht2 in Hsel2.
  pose proof (managed_run (IsOptions innerOptions) (Some (callback t)) innerOptions
                (callback t) _ _ _ t2 r eq_refl Hsel2 Hprep2 Hcb) as Hinner.
  rewrite (managed_run (IsOptions outerOptions) _ outerOptions
             (nestedUnitOfWork this innerOptions callback) w w1 _ t _
             eq_refl Hsel Hprep Hinner).
  split; [| split; [| split; [| split]]].
  - assert (Hid2 : txId t2 = S (txId t)).
    { rewrite Ht2, Hid, Hw1. unfold unitOfWorkWorld, callbackWorld.
      destruct (hasTransactionCls this); reflexivity. }
    unfold same_object. rewrite Hid2. apply Nat.eqb_neq. lia.
  - rewrite Ht2. reflexivity.
  - rewrite Hw1. unfold unitOfWorkWorld, callbackWorld.
    destruct (hasTransactionCls this); simpl; repeat rewrite <- app_assoc; reflexivity.
  - unfold callerWorld. destruct (hasTransactionCls this); simpl;
      rewrite <- app_assoc; reflexivity.
  - reflexivity.
Qed.

(** C9: without a callback -- options alone, or any single argument that is
    not a function -- the call throws the error that points to
    startUnmanagedTransaction, in the world it was called in: no transaction
    object was constructed and no collaborator was called. *)
Theorem transaction_requires_a_callback {T} (options : TransactionOptions) (w : World) :
  transaction this (IsOptions options) (@None (TransactionCallback T)) w
  = (Throw (Error "sequelize.transaction requires a callback. If you wish to start an unmanaged transaction, please use sequelize.startUnmanagedTransaction instead"),
     w).
Proof. reflexivity. Qed.

End TransactionFacts.

(* ================================================================== *)
(** ** Bulk operations *)
(* ================================================================== *)

Section BulkFacts.

Local Open Scope list_scope.

Variable this : Sequelize.


(** Calls started together are all made, in the order of the list. *)
Lemma promiseAllMap_calls {A B} (ev : A -> Event) (out : A -> World -> Outcome B)
    (xs : list A) :
  forall w,
    trace (snd (promiseAllMap xs (fun x => call (ev x) (out x)) w)) = trace w ++ map ev xs.
Proof.
  induction xs as [| x rest IH]; intros w.
  - simpl. rewrite app_nil_r. reflexivity.
  - set (f := fun x0 => call (ev x0) (out x0)) in *. simpl.
    change (f x w) with (out x w, log (ev x) w).
    specialize (IH (log (ev x) w)).
    destruct (promiseAllMap rest f (log (ev x) w)) as [rs w2].
    simpl in *. rewrite IH, <- app_assoc. reflexivity.
Qed.








(** C5: truncate with a truthy withoutForeignKeyChecks, on a dialect that
    cannot disable foreign-key checks, throws the error that says so in the
    world it was called in: neither the query interface nor any model was
    called. *)
Theorem truncate_needs_disableable_foreign_key_checks (o : JsObject) (w : World) :
  truthy (obj_get o "withoutForeignKeyChecks") = true ->
  foreignKeyChecksDisableable this = false ->
  truncate this (Some o) w = (Throw (foreignKeyChecksNotDisableableError this), w).
Proof.
  intros Hchecks Hsupported. unfold truncate. simpl.
  rewrite Hchecks, Hsupported. simpl. rewrite andb_false_r. reflexivity.
Qed.

End BulkFacts.

(* ================================================================== *)
(** ** Connections *)
(* ================================================================== *)

Section ConnectionFacts.

Local Open Scope list_scope.

Variable this : Sequelize.

(** When no connection can be acquired there is nothing to hand back. *)
Lemma withConnection_without_connection {T} optionsOrCallback
    (maybeCallback : option (SessionCallback T)) options callback w e :
  parseArguments writeConnection (obj_spread writeConnection) optionsOrCallback maybeCallback
    = (options, callback) ->
  getConnection_outcome this options w = Throw e ->
  withConnection this optionsOrCallback maybeCallback w
  = (Throw e, log (GetConnection options) w).
Proof.
  intros Hargs Hget. unfold withConnection. rewrite Hargs.
  unfold bind, getConnection, call. rewrite Hget. reflexivity.
Qed.

(** The run of withConnection once the connection is acquired. *)
Lemma withConnection_run {T} optionsOrCallback
    (maybeCallback : option (SessionCallback T)) options callback
    (w w2 : World) (c : Connection) (r : Outcome T) :
  parseArguments writeConnection (obj_spread writeConnection) optionsOrCallback maybeCallback
    = (options, callback) ->
  getConnection_outcome this options w = Return c ->
  invoke callback c (log (GetConnection options) w) = (r, w2) ->
  withConnection this optionsOrCallback maybeCallback w
  = (match handBackOutcome this options c w2 with
     | Return _ => r
     | Throw e => Throw e
     end,
     log (handBackEvent options c) w2).
Proof.
  intros Hargs Hget Hcb. unfold withConnection. rewrite Hargs.
  unfold bind, getConnection, call at 1. rewrite Hget.
  unfold tryFinally. rewrite Hcb.
  unfold handBackEvent, handBackOutcome, destroyConnection, releaseConnection, call.
  destruct (truthy (obj_get options "destroyConnection")).
  - destruct (destroyConnection_outcome this c w2); reflexivity.
  - destruct (releaseConnection_outcome this c w2); reflexivity.
Qed.

(** C10 (amended): once the connection c is acquired, withConnection makes,
    whatever the outcome of the callback, exactly one call that hands c
    back, after the callback: an awaited destroyConnection when
    options.destroyConnection is truthy, a releaseConnection that is not
    awaited otherwise.  When that call returns, the outcome of
    withConnection is the outcome of the callback, its result or its error
    unchanged; a releaseConnection that returns a promise has returned,
    whatever the promise settles to.  When the awaited destroyConnection
    throws, its error is the outcome. *)
Theorem withConnection_hands_the_connection_back {T} optionsOrCallback
    (maybeCallback : option (SessionCallback T)) options callback
    (w w2 : World) (c : Connection) (r : Outcome T) :
  parseArguments writeConnection (obj_spread writeConnection) optionsOrCallback maybeCallback
    = (options, callback) ->
  getConnection_outcome this options w = Return c ->
  invoke callback c (log (GetConnection options) w) = (r, w2) ->
  trace (snd (withConnection this optionsOrCallback maybeCallback w))
    = trace w2 ++ [handBackEvent options c]
  /\ (handBackOutcome this options c w2 = Return tt ->
      fst (withConnection this optionsOrCallback maybeCallback w) = r)
  /\ (forall e,
        truthy (obj_get options "destroyConnection") = true ->
        destroyConnection_outcome this c w2 = Throw e ->
        fst (withConnection this optionsOrCallback maybeCallback w) = Throw e)
  /\ (forall settles,
        truthy (obj_get options "destroyConnection") = false ->
        releaseConnection_completion this c w2 = Promised settles ->
        fst (withConnection this optionsOrCallback maybeCallback w) = r).
Proof.
  intros Hargs Hget Hcb.
  rewrite (withConnection_run _ _ _ _ _ _ _ _ Hargs Hget Hcb). simpl.
  split; [reflexivity |]. split; [| split].
  - intros H. rewrite H. reflexivity.
  - intros e Hdestroy H. unfold handBackOutcome. rewrite Hdestroy, H. reflexivity.
  - intros settles Hdestroy H.
    unfold handBackOutcome, releaseConnection_outcome. rewrite Hdestroy, H. reflexivity.
Qed.

End ConnectionFacts.

(* ================================================================== *)
(** ** Concrete runs *)
(* ================================================================== *)

Section Runs.

Import Samples.
Local Open Scope list_scope.

(** C1 at a unit of work that throws "insert failed" while the rollback
    throws "rollback failed". *)
Lemma rollback_failure_is_suppressed_run :
  fst (transaction rollbackFailing (IsCallback failingWork) None emptyWorld)
    = Throw (Error "insert failed")
  /\ trace (snd (transaction rollbackFailing (IsCallback failingWork) None emptyWorld))
     = [NewTransaction t0; PrepareEnvironment t0; Rollback t0].
Proof.
  exact (rollback_failure_is_suppressed rollbackFailing
           (IsCallback failingWork) None emptyOptions failingWork
           emptyWorld (register t0 emptyWorld)
           (unitOfWorkWorld rollbackFailing t0 (register t0 emptyWorld))
           t0 (Error "insert failed") (Error "rollback failed")
           eq_refl eq_refl eq_refl eq_refl eq_refl).
Defined.

(** C2 at two nested calls, the inner one in mode reuse. *)
Lemma reuse_nested_call_run :
  trace (unitOfWorkWorld healthy t0 (register t0 emptyWorld))
    = [NewTransaction t0; PrepareEnvironment t0]
  /\ trace (snd (transaction healthy (IsOptions emptyOptions)
                   (Some (nestedUnitOfWork healthy (withMode reuse) compareWork)) emptyWorld))
     = [NewTransaction t0; PrepareEnvironment t0; Commit t0]
  /\ fst (transaction healthy (IsOptions emptyOptions)
            (Some (nestedUnitOfWork healthy (withMode reuse) compareWork)) emptyWorld)
     = Return true.
Proof.
  exact (reuse_nested_call_shares_the_outer_transaction healthy
           emptyOptions (withMode reuse) compareWork
           emptyWorld (register t0 emptyWorld)
           (unitOfWorkWorld healthy t0 (register t0 emptyWorld))
           t0 (Return true)
           eq_refl eq_refl eq_refl eq_refl eq_refl eq_refl eq_refl).
Defined.

Example reuse_nested_call_counts :
  let events :=
    trace (snd (transaction healthy (IsOptions emptyOptions)
                  (Some (nestedUnitOfWork healthy (withMode reuse) compareWork)) emptyWorld)) in
  count isPrepare events = 1 /\ count isCommit events = 1 /\ count isRollback events = 0.
Proof. repeat split. Qed.

(** C6 at two nested calls, the inner one in mode separate. *)
Lemma separate_nested_call_run :
  same_object t1 t0 = false
  /\ txParent t1 = None
  /\ trace (unitOfWorkWorld healthy t1
              (register t1 (unitOfWorkWorld healthy t0 (register t0 emptyWorld))))
     = [NewTransaction t0; PrepareEnvironment t0; NewTransaction t1; PrepareEnvironment t1]
  /\ trace (snd (transaction healthy (IsOptions emptyOptions)
                   (Some (nestedUnitOfWork healthy (withMode separate) compareWork))
                   emptyWorld))
     = [NewTransaction t0; PrepareEnvironment t0; NewTransaction t1; PrepareEnvironment t1;
        Commit t1; Commit t0]
  /\ fst (transaction healthy (IsOptions emptyOptions)
            (Some (nestedUnitOfWork healthy (withMode separate) compareWork)) emptyWorld)
     = Return false.
Proof.
  exact (separate_nested_call_owns_a_new_transaction healthy
           emptyOptions (withMode separate) compareWork
           emptyWorld (register t0 emptyWorld)
           (unitOfWorkWorld healthy t1
              (register t1 (unitOfWorkWorld healthy t0 (register t0 emptyWorld))))
           t0 t1 (Return false)
           eq_refl eq_refl eq_refl eq_refl eq_refl eq_refl).
Defined.



Example truncate_cascade_in_sorted_order :
  trace (snd (truncate healthy (Some [("cascade", JBool true)]) emptyWorld))
  = [ModelTruncate "Post" (Some [("cascade", JBool true)]);
     ModelTruncate "User" (Some [("cascade", JBool true)])].
Proof. reflexivity. Qed.

(** C5 at [truncate({ withoutForeignKeyChecks: true })]. *)
Lemma truncate_needs_disableable_foreign_key_checks_run :
  truncate withoutToggle (Some [("withoutForeignKeyChecks", JBool true)]) emptyWorld
  = (Throw (Error ("Sequelize#truncate: snowflake does not support disabling foreign key checks. The "
                   ++ dq ++ "withoutForeignKeyChecks" ++ dq ++ " option cannot be used.")%string),
     emptyWorld).
Proof.
  exact (truncate_needs_disableable_foreign_key_checks withoutToggle
           [("withoutForeignKeyChecks", JBool true)] emptyWorld eq_refl eq_refl).
Defined.

(** C10 (as stated) fails on the code: when destroyConnection throws, its
    error is what the caller receives, instead of the result 42 of the
    callback and instead of the error thrown by the callback. *)
Lemma withConnection_handing_back_fails :
  invoke (Some (fun _ : Connection => ret 42)) 0
      (log (GetConnection [("type", JString "write"); ("destroyConnection", JBool true)])
         emptyWorld)
    = (Return 42,
       log (GetConnection [("type", JString "write"); ("destroyConnection", JBool true)])
         emptyWorld)
  /\ fst (withConnection destroyFailing (IsOptions [("destroyConnection", JBool true)])
            (Some (fun _ : Connection => ret 42)) emptyWorld)
     = Throw (Error "socket closed")
  /\ fst (withConnection destroyFailing (IsOptions [("destroyConnection", JBool true)])
            (Some (fun _ : Connection => @throw nat (Error "query failed"))) emptyWorld)
     = Throw (Error "socket closed").
Proof. repeat split. Qed.

(** C10 (amended) at a callback that returns 42, on a connection that is
    destroyed afterwards. *)
Lemma withConnection_hands_the_connection_back_run :
  trace (snd (withConnection healthy (IsOptions [("destroyConnection", JBool true)])
                (Some (fun _ : Connection => ret 42)) emptyWorld))
    = [GetConnection [("type", JString "write"); ("destroyConnection", JBool true)];
       DestroyConnection 0]
  /\ fst (withConnection healthy (IsOptions [("destroyConnection", JBool true)])
            (Some (fun _ : Connection => ret 42)) emptyWorld)
     = Return 42.
Proof.
  pose proof (withConnection_hands_the_connection_back healthy
                (IsOptions [("destroyConnection", JBool true)])
                (Some (fun _ : Connection => ret 42))
                [("type", JString "write"); ("destroyConnection", JBool true)]
                (Some (fun _ : Connection => ret 42))
                emptyWorld
                (log (GetConnection
                        [("type", JString "write"); ("destroyConnection", JBool true)])
                   emptyWorld)
                0 (Return 42) eq_refl eq_refl eq_refl) as [Htrace [Hok _]].
  split; [exact Htrace | exact (Hok eq_refl)].
Defined.

(** A releaseConnection that rejects once it has returned its promise does
    not reach the caller. *)
Example withConnection_ignores_a_late_release_failure :
  withConnection Faults.lateRelease (IsCallback (fun _ : Connection => ret 42)) None emptyWorld
  = (Return 42,
     {| nextObjectId := 0;
        clsStore := None;
        trace := [GetConnection [("type", JString "write")]; ReleaseConnection 0] |}).
Proof. reflexivity. Qed.

End Runs.

(* ================================================================== *)
(** ** Managed transactions: failures, the ambient store, nest modes *)
(* ================================================================== *)

Section LifecycleFacts.

Local Open Scope list_scope.

Variable this : Sequelize.

Lemma selectTransaction_keeps_store options w :
  clsStore (snd (selectTransaction this options w)) = clsStore w.
Proof.
  unfold selectTransaction, bind.
  pose proof (resolveOptions_keeps_world this options w) as Hw.
  destruct (resolveOptions this options w) as [[n | e] w0]; simpl in Hw; subst w0;
    [| reflexivity].
  destruct (resolveNestMode this options); destruct (o_transaction n); reflexivity.
Qed.

(** X1: when the callback of a call that owns its transaction returns and
    the commit throws E, the call throws E; the last call made is that
    commit: no rollback follows a failed commit. *)
Theorem commit_failure_is_propagated {T} optionsOrCallback maybeCallback options
    (callback : TransactionCallback T) (w w1 w3 : World) (t : Transaction) (v : T) (E : exn) :
  parseArguments emptyOptions (fun o => o) optionsOrCallback maybeCallback
    = (options, Some callback) ->
  selectTransaction this options w = (Return (t, false), w1) ->
  prepareEnvironment_outcome this t (callbackWorld this t w1) = Return tt ->
  callback t (unitOfWorkWorld this t w1) = (Return v, w3) ->
  commit_outcome this t w3 = Throw E ->
  fst (transaction this optionsOrCallback maybeCallback w) = Throw E
  /\ trace (snd (transaction this optionsOrCallback maybeCallback w)) = trace w3 ++ [Commit t].
Proof.
  intros Hargs Hsel Hprep Hcb Hcommit.
  rewrite (managed_run this _ _ _ _ _ _ _ _ _ Hargs Hsel Hprep Hcb). simpl.
  rewrite Hcommit. split; [reflexivity |].
  unfold callerWorld. destruct (hasTransactionCls this); reflexivity.
Qed.

(** X22: when the callback of a call that owns its transaction returns v
    and the commit succeeds, the call returns v; the one call it makes after
    the callback is that commit, and it rolls nothing back. *)
Theorem successful_unit_of_work_is_committed {T} optionsOrCallback maybeCallback options
    (callback : TransactionCallback T) (w w1 w3 : World) (t : Transaction) (v : T) :
  parseArguments emptyOptions (fun o => o) optionsOrCallback maybeCallback
    = (options, Some callback) ->
  selectTransaction this options w = (Return (t, false), w1) ->
  prepareEnvironment_outcome this t (callbackWorld this t w1) = Return tt ->
  callback t (unitOfWorkWorld this t w1) = (Return v, w3) ->
  commit_outcome this t w3 = Return tt ->
  fst (transaction this optionsOrCallback maybeCallback w) = Return v
  /\ trace (snd (transaction this optionsOrCallback maybeCallback w)) = trace w3 ++ [Commit t]
  /\ trace (unitOfWorkWorld this t w1)
     = trace w ++ [NewTransaction t; PrepareEnvironment t].
Proof.
  intros Hargs Hsel Hprep Hcb Hcommit.
  destruct (selectTransaction_created this _ _ _ _ Hsel) as [_ Hw1].
  rewrite (managed_run this _ _ _ _ _ _ _ _ _ Hargs Hsel Hprep Hcb). simpl.
  rewrite Hcommit. split; [reflexivity |]. split.
  - unfold callerWorld. destruct (hasTransactionCls this); reflexivity.
  - rewrite Hw1. unfold unitOfWorkWorld, callbackWorld.
    destruct (hasTransactionCls this); simpl; rewrite <- app_assoc; reflexivity.
Qed.

(** X2: when prepareEnvironment throws E, the call throws E without running
    the callback and without any commit or rollback: whatever the callback,
    the only call made on the new transaction is the prepareEnvironment. *)
Theorem prepare_failure_skips_the_unit_of_work {T} optionsOrCallback maybeCallback options
    (callback : TransactionCallback T) (w w1 : World) (t : Transaction) (E : exn) :
  parseArguments emptyOptions (fun o => o) optionsOrCallback maybeCallback
    = (options, Some callback) ->
  selectTransaction this options w = (Return (t, false), w1) ->
  prepareEnvironment_outcome this t (callbackWorld this t w1) = Throw E ->
  fst (transaction this optionsOrCallback maybeCallback w) = Throw E
  /\ trace (snd (transaction this optionsOrCallback maybeCallback w))
     = trace w1 ++ [PrepareEnvironment t].
Proof.
  intros Hargs Hsel Hprep.
  assert (Hrun : transaction this optionsOrCallback maybeCallback w
                 = (Throw E,
                    callerWorld this w1
                      (log (PrepareEnvironment t) (callbackWorld this t w1)))).
  { unfold transaction. rewrite Hargs. unfold bind at 1. rewrite Hsel.
    unfold callbackWorld, callerWorld in *.
    destruct (hasTransactionCls this);
      unfold cls_run, wrappedCallback, bind, prepareEnvironment, call;
      rewrite Hprep; reflexivity. }
  rewrite Hrun. simpl. split; [reflexivity |].
  unfold callerWorld, callbackWorld. destruct (hasTransactionCls this); reflexivity.
Qed.

(** X3: with the ambient store in use, a call leaves the store as it found
    it, whatever its arguments and however it ends (result, error of the
    callback, missing callback, failed compatibility check). *)
Theorem ambient_store_is_restored {T}
    (optionsOrCallback : OptionsOrCallback TransactionOptions (TransactionCallback T))
    (maybeCallback : option (TransactionCallback T)) (w : World) :
  hasTransactionCls this = true ->
  clsStore (snd (transaction this optionsOrCallback maybeCallback w)) = clsStore w.
Proof.
  intros Hcls. unfold transaction.
  destruct (parseArguments emptyOptions (fun o => o) optionsOrCallback maybeCallback)
    as [options [callback |]]; [| reflexivity].
  unfold bind at 1.
  pose proof (selectTransaction_keeps_store options w) as Hstore.
  destruct (selectTransaction this options w) as [[[t reused] | e] w1]; simpl in Hstore;
    [| exact Hstore].
  rewrite Hcls. unfold cls_run.
  destruct (wrappedCallback this callback t reused (setStore (Some t) w1)) as [r w'].
  exact Hstore.
Qed.

(** X4: with the ambient store in use, getCurrentClsTransaction returns,
    while the callback runs, the very transaction the callback was given:
    a reused one, or a new one once it is prepared. *)
Theorem unit_of_work_sees_its_transaction (options : TransactionOptions)
    (w w1 : World) (t : Transaction) (reused : bool) :
  hasTransactionCls this = true ->
  selectTransaction this options w = (Return (t, reused), w1) ->
  (reused = false ->
   prepareEnvironment_outcome this t (callbackWorld this t w1) = Return tt
   /\ commit_outcome this t (unitOfWorkWorld this t w1) = Return tt) ->
  fst (transaction this (IsOptions options) (Some (observeAmbient this)) w)
  = Return (t, Some t).
Proof.
  intros Hcls Hsel Howned. destruct reused.
  - unfold transaction, parseArguments, bind. rewrite Hsel, Hcls.
    unfold cls_run, wrappedCallback, observeAmbient, getCurrentClsTransaction.
    rewrite Hcls. reflexivity.
  - destruct (Howned eq_refl) as [Hprep Hcommit].
    assert (Hcb : observeAmbient this t (unitOfWorkWorld this t w1)
                  = (Return (t, Some t), unitOfWorkWorld this t w1)).
    { unfold observeAmbient, getCurrentClsTransaction, unitOfWorkWorld, callbackWorld.
      rewrite Hcls. reflexivity. }
    rewrite (managed_run this (IsOptions options) _ options _ w w1 _ t _
               eq_refl Hsel Hprep Hcb).
    simpl. rewrite Hcommit. reflexivity.
Qed.

(** X5: in the modes reuse and savepoint, when the transaction found for the
    call (the one of its options, else the ambient one) fails the
    compatibility check with E, the call throws E in the world it was called
    in: nothing was constructed or prepared and the callback was not run. *)
Theorem incompatible_transaction_is_rejected {T} (options n : TransactionOptions)
    (callback : TransactionCallback T) (w : World) (t : Transaction) (E : exn) :
  resolveNestMode this options <> separate ->
  fst (setTransactionFromCls this (normalizeTransactionOptions this options) w) = Return n ->
  o_transaction n = Some t ->
  assertTransactionIsCompatibleWithOptions this t n = Throw E ->
  transaction this (IsOptions options) (Some callback) w = (Throw E, w).
Proof.
  intros Hmode Hset Ht Hcompat.
  assert (Hsetw : setTransactionFromCls this (normalizeTransactionOptions this options) w
                  = (Return n, w)).
  { revert Hset. unfold setTransactionFromCls.
    destruct (o_transaction (normalizeTransactionOptions this options));
      destruct (getCurrentClsTransaction this w); simpl; intros H; rewrite H; reflexivity. }
  unfold transaction, parseArguments, bind, selectTransaction, bind, resolveOptions.
  destruct (resolveNestMode this options); try congruence;
    unfold bind; rewrite Hsetw, Ht; unfold lift; rewrite Hcompat; reflexivity.
Qed.

Lemma selectTransaction_without_ambient (options : TransactionOptions) (w : World) :
  getCurrentClsTransaction this w = None ->
  o_transaction (normalizeTransactionOptions this options) = None ->
  selectTransaction this options w
  = (Return (constructed (deleteTransaction (normalizeTransactionOptions this options)) w,
             false),
     register (constructed (deleteTransaction (normalizeTransactionOptions this options)) w) w).
Proof.
  intros Hambient Hnone.
  unfold selectTransaction, bind, resolveOptions.
  destruct (resolveNestMode this options); try reflexivity;
    unfold bind, setTransactionFromCls; rewrite Hnone, Hambient; simpl;
    rewrite Hnone; unfold newTransaction, constructed; simpl; rewrite Hnone; reflexivity.
Qed.

(** X6: when there is no ambient transaction (the store is empty, or the
    ambient store is not in use) and the options name none, every nest mode
    does the same: it constructs a new transaction, bound to no parent and
    carrying the normalized settings, which the call owns. *)
Theorem without_ambient_every_mode_constructs (options : TransactionOptions) (w : World) :
  getCurrentClsTransaction this w = None ->
  o_transaction (normalizeTransactionOptions this options) = None ->
  exists t,
    selectTransaction this options w = (Return (t, false), register t w)
    /\ txId t = nextObjectId w
    /\ txParent t = None
    /\ txOptions t = o_settings (normalizeTransactionOptions this options).
Proof.
  intros Hambient Hnone.
  exists (constructed (deleteTransaction (normalizeTransactionOptions this options)) w).
  split; [apply selectTransaction_without_ambient; assumption |].
  repeat split.
Qed.

(** X7: in mode reuse, a call whose options name a transaction that passes
    the compatibility check runs its callback on that transaction and does
    nothing else: no construction, prepare, commit or rollback, with or
    without the ambient store. *)
Theorem reuse_of_the_transaction_of_the_options {T} (options : TransactionOptions)
    (callback : TransactionCallback T) (w : World) (t : Transaction) :
  resolveNestMode this options = reuse ->
  o_transaction (normalizeTransactionOptions this options) = Some t ->
  assertTransactionIsCompatibleWithOptions this t
    (normalizeTransactionOptions this options) = Return tt ->
  transaction this (IsOptions options) (Some callback) w
  = (if hasTransactionCls this then cls_run t (callback t) w else callback t w).
Proof.
  intros Hmode Ht Hcompat.
  unfold transaction, parseArguments, bind, selectTransaction, bind, resolveOptions.
  rewrite Hmode. unfold bind, setTransactionFromCls. rewrite Ht. simpl.
  rewrite Ht. unfold lift. rewrite Hcompat. simpl. rewrite Ht.
  unfold ret, same_object. rewrite Nat.eqb_refl.
  destruct (hasTransactionCls this); reflexivity.
Qed.

(** Two nested calls that each own their transaction: the inner call
    finishes its transaction before the outer call finishes its own. *)
Lemma nested_owned_run {T} (outerOptions innerOptions : TransactionOptions)
    (callback : Transaction -> TransactionCallback T)
    (w w1 w5 : World) (t t2 : Transaction) (r : Outcome T) :
  selectTransaction this outerOptions w = (Return (t, false), w1) ->
  prepareEnvironment_outcome this t (callbackWorld this t w1) = Return tt ->
  selectTransaction this innerOptions (unitOfWorkWorld this t w1)
    = (Return (t2, false), register t2 (unitOfWorkWorld this t w1)) ->
  prepareEnvironment_outcome this t2
    (callbackWorld this t2 (register t2 (unitOfWorkWorld this t w1))) = Return tt ->
  callback t t2 (unitOfWorkWorld this t2 (register t2 (unitOfWorkWorld this t w1))) = (r, w5) ->
  trace (unitOfWorkWorld this t2 (register t2 (unitOfWorkWorld this t w1)))
    = trace w ++ [NewTransaction t; PrepareEnvironment t;
                  NewTransaction t2; PrepareEnvironment t2]
  /\ trace (snd (transaction this (IsOptions outerOptions)
                   (Some (nestedUnitOfWork this innerOptions callback)) w))
     = trace w5 ++ [finishEvent t2 r; finishEvent t (managedOutcome this t2 r w5)]
  /\ txId t2 = S (txId t).
Proof.
  intros Hsel Hprep Hsel2 Hprep2 Hcb.
  destruct (selectTransaction_created this _ _ _ _ Hsel) as [Hid Hw1].
  destruct (selectTransaction_created this _ _ _ _ Hsel2) as [Hid2 _].
  pose proof (managed_run this (IsOptions innerOptions) (Some (callback t)) innerOptions
                (callback t) _ _ _ t2 r eq_refl Hsel2 Hprep2 Hcb) as Hinner.
  rewrite (managed_run this (IsOptions outerOptions) _ outerOptions
             (nestedUnitOfWork this innerOptions callback) w w1 _ t _
             eq_refl Hsel Hprep Hinner).
  split; [| split].
  - rewrite Hw1. unfold unitOfWorkWorld, callbackWorld.
    destruct (hasTransactionCls this); simpl; repeat rewrite <- app_assoc; reflexivity.
  - unfold callerWorld. destruct (hasTransactionCls this); simpl;
      rewrite <- app_assoc; reflexivity.
  - rewrite Hid2, Hid, Hw1. unfold unitOfWorkWorld, callbackWorld.
    destruct (hasTransactionCls this); reflexivity.
Qed.

(** X8: with the ambient store in use, let a call that owns its transaction
    t run, as its unit of work, a call in mode savepoint whose options name
    no transaction and are compatible with t.  The inner call constructs a
    transaction t2 whose parent is t, another object than t, prepares it,
    runs its callback on it and commits it (or rolls it back, if the
    callback threw) before the outer call commits or rolls back t. *)
Theorem savepoint_nested_call_is_bound_to_the_outer_transaction {T}
    (outerOptions innerOptions : TransactionOptions)
    (callback : Transaction -> TransactionCallback T)
    (w w1 w5 : World) (t t2 : Transaction) (r : Outcome T) :
  hasTransactionCls this = true ->
  selectTransaction this outerOptions w = (Return (t, false), w1) ->
  prepareEnvironment_outcome this t (callbackWorld this t w1) = Return tt ->
  resolveNestMode this innerOptions = savepoint ->
  o_transaction (normalizeTransactionOptions this innerOptions) = None ->
  assertTransactionIsCompatibleWithOptions this t
    (withTransaction t (normalizeTransactionOptions this innerOptions)) = Return tt ->
  t2 = constructed (withTransaction t (normalizeTransactionOptions this innerOptions))
         (unitOfWorkWorld this t w1) ->
  prepareEnvironment_outcome this t2
    (callbackWorld this t2 (register t2 (unitOfWorkWorld this t w1))) = Return tt ->
  callback t t2 (unitOfWorkWorld this t2 (register t2 (unitOfWorkWorld this t w1))) = (r, w5) ->
  txParent t2 = Some t
  /\ same_object t2 t = false
  /\ trace (unitOfWorkWorld this t2 (register t2 (unitOfWorkWorld this t w1)))
     = trace w ++ [NewTransaction t; PrepareEnvironment t;
                   NewTransaction t2; PrepareEnvironment t2]
  /\ trace (snd (transaction this (IsOptions outerOptions)
                   (Some (nestedUnitOfWork this innerOptions callback)) w))
     = trace w5 ++ [finishEvent t2 r; finishEvent t (managedOutcome this t2 r w5)].
Proof.
  intros Hcls Hsel Hprep Hmode Hnone Hcompat Ht2 Hprep2 Hcb.
  destruct (selectTransaction_created this _ _ _ _ Hsel) as [Hid Hw1].
  assert (Hfresh : txId t2 = S (txId t)).
  { rewrite Ht2, Hid, Hw1. unfold unitOfWorkWorld, callbackWorld. rewrite Hcls. reflexivity. }
  assert (Hdistinct : same_object t2 t = false).
  { unfold same_object. rewrite Hfresh. apply Nat.eqb_neq. lia. }
  assert (Hsel2 : selectTransaction this innerOptions (unitOfWorkWorld this t w1)
                  = (Return (t2, false), register t2 (unitOfWorkWorld this t w1))).
  { unfold selectTransaction, bind, resolveOptions. rewrite Hmode.
    unfold bind, setTransactionFromCls, getCurrentClsTransaction.
    rewrite Hnone, Hcls. unfold unitOfWorkWorld at 1, callbackWorld at 1. rewrite Hcls.
    simpl. unfold lift. rewrite Hcompat. simpl. unfold newTransaction, ret.
    rewrite <- Ht2. rewrite Hdistinct. reflexivity. }
  destruct (nested_owned_run outerOptions innerOptions callback w w1 w5 t t2 r
              Hsel Hprep Hsel2 Hprep2 Hcb) as [Hstart [Hend _]].
  split; [rewrite Ht2; reflexivity |].
  split; [exact Hdistinct |]. split; assumption.
Qed.

(** X9: when the ambient store is not in use, a call nested in the unit of
    work of a call that owns t does not see t, whatever its nest mode: with
    options that name no transaction it constructs a transaction t2 of its
    own, bound to no parent, and prepares and finishes it itself. *)
Theorem without_cls_nested_call_owns_a_new_transaction {T}
    (outerOptions innerOptions : TransactionOptions)
    (callback : Transaction -> TransactionCallback T)
    (w w1 w5 : World) (t t2 : Transaction) (r : Outcome T) :
  hasTransactionCls this = false ->
  selectTransaction this outerOptions w = (Return (t, false), w1) ->
  prepareEnvironment_outcome this t (callbackWorld this t w1) = Return tt ->
  o_transaction (normalizeTransactionOptions this innerOptions) = None ->
  t2 = constructed (deleteTransaction (normalizeTransactionOptions this innerOptions))
         (unitOfWorkWorld this t w1) ->
  prepareEnvironment_outcome this t2
    (callbackWorld this t2 (register t2 (unitOfWorkWorld this t w1))) = Return tt ->
  callback t t2 (unitOfWorkWorld this t2 (register t2 (unitOfWorkWorld this t w1))) = (r, w5) ->
  txParent t2 = None
  /\ same_object t2 t = false
  /\ trace (snd (transaction this (IsOptions outerOptions)
                   (Some (nestedUnitOfWork this innerOptions callback)) w))
     = trace w5 ++ [finishEvent t2 r; finishEvent t (managedOutcome this t2 r w5)].
Proof.
  intros Hcls Hsel Hprep Hnone Ht2 Hprep2 Hcb.
  assert (Hambient : getCurrentClsTransaction this (unitOfWorkWorld this t w1) = None).
  { unfold getCurrentClsTransaction. rewrite Hcls. reflexivity. }
  pose proof (selectTransaction_without_ambient innerOptions _ Hambient Hnone) as Hsel2.
  rewrite <- Ht2 in Hsel2.
  destruct (nested_owned_run outerOptions innerOptions callback w w1 w5 t t2 r
              Hsel Hprep Hsel2 Hprep2 Hcb) as [_ [Hend Hfresh]].
  split; [rewrite Ht2; reflexivity |]. split; [| exact Hend].
  unfold same_object. rewrite Hfresh. apply Nat.eqb_neq. lia.
Qed.

(** X10: startUnmanagedTransaction constructs and prepares a transaction and
    leaves the ambient store alone, so the transaction it returns is not
    ambient: a managed call made next, with no ambient transaction and none
    in its options, constructs another object instead of reusing it. *)
Theorem unmanaged_transaction_is_not_ambient (o options : TransactionOptions) (w : World) :
  prepareEnvironment_outcome this (constructed o w) (register (constructed o w) w)
    = Return tt ->
  getCurrentClsTransaction this w = None ->
  o_transaction (normalizeTransactionOptions this options) = None ->
  exists u w' t2,
    startUnmanagedTransaction this o w = (Return u, w')
    /\ trace w' = trace w ++ [NewTransaction u; PrepareEnvironment u]
    /\ clsStore w' = clsStore w
    /\ selectTransaction this options w' = (Return (t2, false), register t2 w')
    /\ same_object t2 u = false.
Proof.
  intros Hprep Hambient Hnone.
  exists (constructed o w), (log (PrepareEnvironment (constructed o w))
                               (register (constructed o w) w)).
  exists (constructed (deleteTransaction (normalizeTransactionOptions this options))
            (log (PrepareEnvironment (constructed o w)) (register (constructed o w) w))).
  split; [| split; [| split; [| split]]].
  - unfold startUnmanagedTransaction, bind, newTransaction, prepareEnvironment, call.
    rewrite Hprep. reflexivity.
  - simpl. rewrite <- app_assoc. reflexivity.
  - reflexivity.
  - apply selectTransaction_without_ambient; [| exact Hnone].
    unfold getCurrentClsTransaction in *. exact Hambient.
  - unfold same_object.
    change (Nat.eqb (S (nextObjectId w)) (nextObjectId w) = false).
    apply Nat.eqb_neq. lia.
Qed.

End LifecycleFacts.

(* ================================================================== *)
(** ** Option bags *)
(* ================================================================== *)

Section ObjectFacts.

Local Open Scope list_scope.

Lemma obj_get_absent (o : JsObject) (k : string) :
  obj_has o k = false -> obj_get o k = JUndefined.
Proof.
  induction o as [| [k' v] rest IH]; simpl; [reflexivity |].
  destruct (String.eqb k k'); simpl; [discriminate | exact IH].
Qed.

Lemma obj_has_keys (o : JsObject) (k : string) :
  obj_has o k = true <-> In k (keys o).
Proof.
  induction o as [| [k' v] rest IH]; simpl.
  - split; [discriminate | tauto].
  - destruct (String.eqb_spec k k') as [-> | Hne]; simpl.
    + tauto.
    + rewrite IH. split; [tauto |]. intros [H | H]; [congruence | exact H].
Qed.

Lemma obj_get_set_same (k : string) (v : JsValue) (o : JsObject) :
  obj_get (obj_set k v o) k = v.
Proof.
  induction o as [| [k' v'] rest IH]; simpl.
  - rewrite String.eqb_refl. reflexivity.
  - destruct (String.eqb k k') eqn:E; simpl; rewrite E; [reflexivity | exact IH].
Qed.

Lemma obj_get_set_other (k k' : string) (v : JsValue) (o : JsObject) :
  k' <> k -> obj_get (obj_set k v o) k' = obj_get o k'.
Proof.
  intros Hne. induction o as [| [k0 v0] rest IH]; simpl.
  - destruct (String.eqb_spec k' k); [congruence | reflexivity].
  - destruct (String.eqb_spec k k0) as [-> | Hk]; simpl.
    + destruct (String.eqb_spec k' k0); [congruence | reflexivity].
    + destruct (String.eqb k' k0); [reflexivity | exact IH].
Qed.

(** [{ ...base, ...o }.k] is [o.k] when [o] has the property and [base.k]
    otherwise. *)
Lemma obj_get_spread (o : JsObject) :
  NoDup (keys o) ->
  forall base k,
    obj_get (obj_spread base o) k = if obj_has o k then obj_get o k else obj_get base k.
Proof.
  unfold obj_spread.
  induction o as [| [k0 v0] rest IH]; intros Hnodup base k; simpl; [reflexivity |].
  inversion Hnodup as [| ? ? Hnotin Hrest]; subst.
  rewrite (IH Hrest).
  destruct (String.eqb_spec k k0) as [-> | Hne]; simpl.
  - assert (Hhas : obj_has rest k0 = false).
    { apply not_true_is_false. intros H. apply obj_has_keys in H. exact (Hnotin H). }
    rewrite Hhas. apply obj_get_set_same.
  - destruct (obj_has rest k); [reflexivity |]. apply obj_get_set_other. exact Hne.
Qed.


End ObjectFacts.

(* ================================================================== *)
(** ** Bulk operations: rejected options, the options handed to the
       models, and failures *)
(* ================================================================== *)

Section BulkFailureFacts.

Local Open Scope list_scope.

Variable this : Sequelize.

Lemma logAll_app (xs ys : list Event) (w : World) :
  logAll (xs ++ ys) w = logAll ys (logAll xs w).
Proof. unfold logAll. apply fold_left_app. Qed.


(** Calls started together: the result is rejected as soon as one element
    fails wherever it is called. *)
Lemma promiseAllMap_rejects {A B} (ev : A -> Event) (out : A -> World -> Outcome B)
    (xs : list A) (x : A) :
  In x xs ->
  (forall w, is_throw (out x w) = true) ->
  forall w, is_throw (fst (promiseAllMap xs (fun y => call (ev y) (out y)) w)) = true.
Proof.
  intros Hin Hfails.
  induction xs as [| y rest IH]; [destruct Hin |].
  intros w.
  set (f := fun y0 => call (ev y0) (out y0)) in *. simpl.
  change (f y w) with (out y w, log (ev y) w).
  destruct Hin as [-> | Hin].
  - specialize (Hfails w).
    destruct (promiseAllMap rest f (log (ev x) w)) as [rs w2].
    destruct (out x w); [discriminate | reflexivity].
  - specialize (IH Hin (log (ev y) w)).
    destruct (promiseAllMap rest f (log (ev y) w)) as [rs w2].
    simpl in *. destruct (out y w); destruct rs; try reflexivity; discriminate.
Qed.

(** X11: destroyAll refuses an options object that has a [limit] property,
    and one that has a [truncate] property, whatever the value of the
    property, before it touches any model; [limit] is tested first. *)
Theorem destroyAll_refuses_limit_and_truncate (o : JsObject) (w : World) :
  (obj_has o "limit" = true ->
   destroyAll this (Some o) w
   = (Throw (Error "sequelize.destroyAll does not support the limit option."), w))
  /\ (obj_has o "limit" = false ->
      obj_has o "truncate" = true ->
      destroyAll this (Some o) w
      = (Throw (Error "sequelize.destroyAll does not support the truncate option. Use sequelize.truncate instead."),
         w)).
Proof.
  unfold destroyAll. simpl. split.
  - intros H. rewrite H. reflexivity.
  - intros Hlimit Htruncate. rewrite Hlimit, Htruncate. reflexivity.
Qed.



(** X14: without cascade and withoutForeignKeyChecks, on an acyclic graph,
    truncate starts the truncation of every model even when one of them
    fails, and is rejected when one of them fails. *)
Theorem truncate_starts_every_model_and_rejects (options : option JsObject) (w : World)
    (sorted : list ModelStatic) (model : ModelStatic) :
  getModelsTopoSortedByForeignKey this = Some sorted ->
  truthy (opt_get options "cascade") = false ->
  truthy (opt_get options "withoutForeignKeyChecks") = false ->
  In model sorted ->
  (forall w', is_throw (truncate_outcome this model options w') = true) ->
  is_throw (fst (truncate this options w)) = true
  /\ trace (snd (truncate this options w))
     = trace w ++ map (fun model => ModelTruncate model options) sorted.
Proof.
  intros Hsorted Hcascade Hchecks Hin Hfails.
  assert (Hrun : truncate this options
                 = (promiseAllMap sorted (fun model => truncateModel this model options) ;;
                    ret tt)).
  { unfold truncate, modelsToProcess. rewrite Hsorted, Hcascade. simpl.
    destruct options as [o |]; [| reflexivity].
    simpl in Hchecks. rewrite Hchecks. reflexivity. }
  rewrite Hrun. unfold bind, truncateModel.
  pose proof (promiseAllMap_rejects (fun model => ModelTruncate model options)
                (fun model => truncate_outcome this model options) sorted model
                Hin Hfails w) as Hthrow.
  pose proof (promiseAllMap_calls (fun model => ModelTruncate model options)
                (fun model => truncate_outcome this model options) sorted w) as Hcalls.
  destruct (promiseAllMap sorted
              (fun model => call (ModelTruncate model options)
                              (truncate_outcome this model options)) w)
    as [[rs | e] w2]; simpl in *; [discriminate |].
  split; [reflexivity | exact Hcalls].
Qed.

End BulkFailureFacts.

(* ================================================================== *)
(** ** Connections: acquisition, resolved options, missing callback *)
(* ================================================================== *)

Section SessionFacts.

Local Open Scope list_scope.

Variable this : Sequelize.

(** X15: when getConnection throws E, withConnection throws E; the callback
    is not run and nothing is released or destroyed: the only call made is
    the getConnection. *)
Theorem acquisition_failure_skips_callback_and_release {T} optionsOrCallback
    (maybeCallback : option (SessionCallback T)) options callback (w : World) (E : exn) :
  parseArguments writeConnection (obj_spread writeConnection) optionsOrCallback maybeCallback
    = (options, callback) ->
  getConnection_outcome this options w = Throw E ->
  fst (withConnection this optionsOrCallback maybeCallback w) = Throw E
  /\ trace (snd (withConnection this optionsOrCallback maybeCallback w))
     = trace w ++ [GetConnection options].
Proof.
  intros Hargs Hget.
  rewrite (withConnection_without_connection this _ _ _ _ _ _ Hargs Hget).
  split; reflexivity.
Qed.

(** X16: called with a callback alone, withConnection asks for a connection
    with the options [{ type: 'write' }], hands the acquired connection to
    the callback, and releases it (it never destroys it); a second argument
    is ignored. *)
Theorem withConnection_with_a_callback_alone
    (maybeCallback : option (SessionCallback Connection)) (w : World) (c : Connection) :
  getConnection_outcome this writeConnection w = Return c ->
  releaseConnection_outcome this c (log (GetConnection writeConnection) w) = Return tt ->
  withConnection this (IsCallback observeConnection) maybeCallback w
  = (Return c, logAll [GetConnection writeConnection; ReleaseConnection c] w).
Proof.
  intros Hget Hrelease.
  rewrite (withConnection_run this (IsCallback observeConnection) maybeCallback
             writeConnection (Some observeConnection) w
             (log (GetConnection writeConnection) w) c (Return c) eq_refl Hget eq_refl).
  unfold handBackOutcome, handBackEvent. simpl. rewrite Hrelease. reflexivity.
Qed.

(** X17: the options withConnection resolves from an options object are
    that object with [type] defaulted to 'write': a [type] property of the
    caller wins, even one that is undefined, and every other property,
    [destroyConnection] among them, is the caller's. *)
Theorem withConnection_defaults_type_to_write {T} (o : JsObject)
    (maybeCallback : option (SessionCallback T)) :
  NoDup (keys o) ->
  obj_get (fst (parseArguments writeConnection (obj_spread writeConnection)
                  (IsOptions o) maybeCallback)) "type"
    = (if obj_has o "type" then obj_get o "type" else JString "write")
  /\ (forall k,
        k <> "type" ->
        obj_get (fst (parseArguments writeConnection (obj_spread writeConnection)
                        (IsOptions o) maybeCallback)) k
        = obj_get o k)
  /\ (forall c,
        handBackEvent (fst (parseArguments writeConnection (obj_spread writeConnection)
                              (IsOptions o) maybeCallback)) c
        = handBackEvent o c).
Proof.
  intros Hnodup. simpl.
  assert (Hother : forall k, k <> "type" ->
                     obj_get (obj_spread writeConnection o) k = obj_get o k).
  { intros k Hk. rewrite (obj_get_spread o Hnodup).
    destruct (obj_has o k) eqn:E; [reflexivity |].
    rewrite (obj_get_absent o k E). unfold writeConnection. simpl.
    destruct (String.eqb_spec k "type"); [congruence | reflexivity]. }
  split; [| split].
  - rewrite (obj_get_spread o Hnodup). reflexivity.
  - exact Hother.
  - intros c. unfold handBackEvent. rewrite Hother; [reflexivity | discriminate].
Qed.

(** X18: called with options and no callback, withConnection still acquires
    a connection; calling the missing callback throws a TypeError, and the
    connection is handed back before that error reaches the caller. *)
Theorem withConnection_without_a_callback {T} (o : JsObject) (w : World) (c : Connection) :
  getConnection_outcome this (obj_spread writeConnection o) w = Return c ->
  handBackOutcome this (obj_spread writeConnection o) c
    (log (GetConnection (obj_spread writeConnection o)) w) = Return tt ->
  withConnection this (IsOptions o) (@None (SessionCallback T)) w
  = (Throw (TypeError "callback is not a function"),
     logAll [GetConnection (obj_spread writeConnection o);
             handBackEvent (obj_spread writeConnection o) c] w).
Proof.
  intros Hget Hback.
  rewrite (withConnection_run this (IsOptions o) None (obj_spread writeConnection o) None w
             (log (GetConnection (obj_spread writeConnection o)) w) c
             (Throw (TypeError "callback is not a function")) eq_refl Hget eq_refl).
  rewrite Hback. reflexivity.
Qed.

End SessionFacts.

(* ================================================================== *)
(** ** The query generator: skipped schemas and accepted options *)
(* ================================================================== *)

Section GeneratorOptionFacts.

Local Open Scope list_scope.

Variable this : Context.


(** X20: showConstraintsQuery never fails for an options object whose
    properties are among constraintName and constraintType: it returns the
    join of its fragments. *)
Theorem showConstraintsQuery_accepts_its_two_filters (table : TableNameOrModel)
    (o : JsObject) :
  (forall k, In k (keys o) -> k = "constraintName" \/ k = "constraintType") ->
  showConstraintsQuery this table (Some o)
  = Return (joinSQLFragments this
              (showConstraintsFragments this (extractTableDetails this table) (Some o))).
Proof.
  intros Hkeys. unfold showConstraintsQuery, validateIfSupplied.
  rewrite rejectInvalidOptions_accepts; [reflexivity |].
  intros k Hin. destruct (Hkeys k Hin) as [-> | ->]; reflexivity.
Qed.

End GeneratorOptionFacts.

(* ================================================================== *)
(** ** More concrete runs *)
(* ================================================================== *)

Section FaultRuns.

Import Samples.
Local Open Scope list_scope.

(** X1 at a commit that throws "commit failed". *)
Lemma commit_failure_is_propagated_run :
  fst (transaction Faults.uncommitted (IsCallback Faults.work) None emptyWorld)
    = Throw (Error "commit failed")
  /\ trace (snd (transaction Faults.uncommitted (IsCallback Faults.work) None emptyWorld))
     = [NewTransaction t0; PrepareEnvironment t0; Commit t0].
Proof.
  exact (commit_failure_is_propagated Faults.uncommitted
           (IsCallback Faults.work) None emptyOptions Faults.work
           emptyWorld (register t0 emptyWorld)
           (unitOfWorkWorld Faults.uncommitted t0 (register t0 emptyWorld))
           t0 7 (Error "commit failed") eq_refl eq_refl eq_refl eq_refl eq_refl).
Defined.

(** X22 at a unit of work that returns 7. *)
Lemma successful_unit_of_work_is_committed_run :
  fst (transaction Faults.sound (IsCallback Faults.work) None emptyWorld) = Return 7
  /\ trace (snd (transaction Faults.sound (IsCallback Faults.work) None emptyWorld))
     = [NewTransaction t0; PrepareEnvironment t0; Commit t0]
  /\ trace (unitOfWorkWorld Faults.sound t0 (register t0 emptyWorld))
     = [NewTransaction t0; PrepareEnvironment t0].
Proof.
  exact (successful_unit_of_work_is_committed Faults.sound
           (IsCallback Faults.work) None emptyOptions Faults.work
           emptyWorld (register t0 emptyWorld)
           (unitOfWorkWorld Faults.sound t0 (register t0 emptyWorld))
           t0 7 eq_refl eq_refl eq_refl eq_refl eq_refl).
Defined.

(** X2 at a prepareEnvironment that throws "no connection". *)
Lemma prepare_failure_skips_the_unit_of_work_run :
  fst (transaction Faults.unprepared (IsCallback Faults.work) None emptyWorld)
    = Throw (Error "no connection")
  /\ trace (snd (transaction Faults.unprepared (IsCallback Faults.work) None emptyWorld))
     = [NewTransaction t0; PrepareEnvironment t0].
Proof.
  exact (prepare_failure_skips_the_unit_of_work Faults.unprepared
           (IsCallback Faults.work) None emptyOptions Faults.work
           emptyWorld (register t0 emptyWorld) t0 (Error "no connection")
           eq_refl eq_refl eq_refl).
Defined.

(** X3 at a failing unit of work started under an ambient transaction. *)
Lemma ambient_store_is_restored_run :
  clsStore (snd (transaction Faults.sound (IsOptions (withMode separate)) (Some failingWork)
                   {| nextObjectId := 1; clsStore := Some t0; trace := [] |}))
  = Some t0.
Proof.
  exact (ambient_store_is_restored Faults.sound (IsOptions (withMode separate))
           (Some failingWork) {| nextObjectId := 1; clsStore := Some t0; trace := [] |}
           eq_refl).
Defined.

(** X4 at a top-level call. *)
Lemma unit_of_work_sees_its_transaction_run :
  fst (transaction Faults.sound (IsOptions emptyOptions)
         (Some (observeAmbient Faults.sound)) emptyWorld)
  = Return (t0, Some t0).
Proof.
  exact (unit_of_work_sees_its_transaction Faults.sound emptyOptions
           emptyWorld (register t0 emptyWorld) t0 false eq_refl eq_refl
           (fun _ => conj eq_refl eq_refl)).
Defined.

(** X5 at a call in mode reuse under an incompatible ambient transaction. *)
Lemma incompatible_transaction_is_rejected_run :
  transaction Faults.incompatible (IsOptions emptyOptions) (Some Faults.work)
    {| nextObjectId := 1; clsStore := Some t0; trace := [] |}
  = (Throw (Error "isolation level mismatch"),
     {| nextObjectId := 1; clsStore := Some t0; trace := [] |}).
Proof.
  apply (incompatible_transaction_is_rejected Faults.incompatible emptyOptions
           (withTransaction t0 emptyOptions) Faults.work
           {| nextObjectId := 1; clsStore := Some t0; trace := [] |} t0
           (Error "isolation level mismatch")).
  - discriminate.
  - reflexivity.
  - reflexivity.
  - reflexivity.
Defined.

(** X6 at a top-level call in mode savepoint. *)
Lemma without_ambient_every_mode_constructs_run :
  exists t,
    selectTransaction Faults.sound (withMode savepoint) emptyWorld
      = (Return (t, false), register t emptyWorld)
    /\ txId t = 0
    /\ txParent t = None
    /\ txOptions t = [].
Proof.
  exact (without_ambient_every_mode_constructs Faults.sound (withMode savepoint) emptyWorld
           eq_refl eq_refl).
Defined.

(** X7 at options that name the transaction t0, while no store is in use. *)
Lemma reuse_of_the_transaction_of_the_options_run :
  transaction Faults.withoutCls
    (IsOptions {| o_nestMode := Some reuse; o_transaction := Some t0; o_settings := [] |})
    (Some (fun t => ret (txId t))) {| nextObjectId := 1; clsStore := None; trace := [] |}
  = (Return 0, {| nextObjectId := 1; clsStore := None; trace := [] |}).
Proof.
  exact (reuse_of_the_transaction_of_the_options Faults.withoutCls
           {| o_nestMode := Some reuse; o_transaction := Some t0; o_settings := [] |}
           (fun t => ret (txId t)) {| nextObjectId := 1; clsStore := None; trace := [] |} t0
           eq_refl eq_refl eq_refl).
Defined.

(** X8 at two nested calls, the inner one in mode savepoint. *)
Lemma savepoint_nested_call_run :
  txParent {| txId := 1; txParent := Some t0; txOptions := [] |} = Some t0
  /\ same_object {| txId := 1; txParent := Some t0; txOptions := [] |} t0 = false
  /\ trace (unitOfWorkWorld Faults.sound {| txId := 1; txParent := Some t0; txOptions := [] |}
              (register {| txId := 1; txParent := Some t0; txOptions := [] |}
                 (unitOfWorkWorld Faults.sound t0 (register t0 emptyWorld))))
     = [NewTransaction t0; PrepareEnvironment t0;
        NewTransaction {| txId := 1; txParent := Some t0; txOptions := [] |};
        PrepareEnvironment {| txId := 1; txParent := Some t0; txOptions := [] |}]
  /\ trace (snd (transaction Faults.sound (IsOptions emptyOptions)
                   (Some (nestedUnitOfWork Faults.sound (withMode savepoint) Faults.pairWork))
                   emptyWorld))
     = [NewTransaction t0; PrepareEnvironment t0;
        NewTransaction {| txId := 1; txParent := Some t0; txOptions := [] |};
        PrepareEnvironment {| txId := 1; txParent := Some t0; txOptions := [] |};
        Commit {| txId := 1; txParent := Some t0; txOptions := [] |};
        Commit t0].
Proof.
  exact (savepoint_nested_call_is_bound_to_the_outer_transaction Faults.sound
           emptyOptions (withMode savepoint) Faults.pairWork
           emptyWorld (register t0 emptyWorld)
           (unitOfWorkWorld Faults.sound {| txId := 1; txParent := Some t0; txOptions := [] |}
              (register {| txId := 1; txParent := Some t0; txOptions := [] |}
                 (unitOfWorkWorld Faults.sound t0 (register t0 emptyWorld))))
           t0 {| txId := 1; txParent := Some t0; txOptions := [] |} (Return (0, 1))
           eq_refl eq_refl eq_refl eq_refl eq_refl eq_refl eq_refl eq_refl eq_refl).
Defined.

(** X9 at two nested calls in mode reuse, without the ambient store. *)
Lemma without_cls_nested_call_run :
  txParent t1 = None
  /\ same_object t1 t0 = false
  /\ trace (snd (transaction Faults.withoutCls (IsOptions emptyOptions)
                   (Some (nestedUnitOfWork Faults.withoutCls (withMode reuse) Faults.pairWork))
                   emptyWorld))
     = [NewTransaction t0; PrepareEnvironment t0; NewTransaction t1; PrepareEnvironment t1;
        Commit t1; Commit t0].
Proof.
  exact (without_cls_nested_call_owns_a_new_transaction Faults.withoutCls
           emptyOptions (withMode reuse) Faults.pairWork
           emptyWorld (register t0 emptyWorld)
           (unitOfWorkWorld Faults.withoutCls t1
              (register t1 (unitOfWorkWorld Faults.withoutCls t0 (register t0 emptyWorld))))
           t0 t1 (Return (0, 1))
           eq_refl eq_refl eq_refl eq_refl eq_refl eq_refl eq_refl).
Defined.

(** X10 at an unmanaged transaction followed by a managed call. *)
Lemma unmanaged_transaction_is_not_ambient_run :
  exists u w' t2,
    startUnmanagedTransaction Faults.sound emptyOptions emptyWorld = (Return u, w')
    /\ trace w' = [NewTransaction u; PrepareEnvironment u]
    /\ clsStore w' = None
    /\ selectTransaction Faults.sound emptyOptions w' = (Return (t2, false), register t2 w')
    /\ same_object t2 u = false.
Proof.
  exact (unmanaged_transaction_is_not_ambient Faults.sound emptyOptions emptyOptions
           emptyWorld eq_refl eq_refl eq_refl).
Defined.

(** X11 at [{ limit: undefined }]. *)
Lemma destroyAll_refuses_limit_and_truncate_run :
  destroyAll Faults.sound (Some [("limit", JUndefined)]) emptyWorld
  = (Throw (Error "sequelize.destroyAll does not support the limit option."), emptyWorld).
Proof.
  exact (proj1 (destroyAll_refuses_limit_and_truncate Faults.sound
                  [("limit", JUndefined)] emptyWorld) eq_refl).
Defined.


Example destroyAll_stops_at_the_referenced_model :
  destroyAll Faults.referenced (Some [("where", JString "x"); ("force", JBool true)]) emptyWorld
  = (Throw (Error "row is referenced"),
     {| nextObjectId := 0;
        clsStore := None;
        trace := [ModelDestroy "Comment" [("where", JObject []); ("force", JBool true)];
                  ModelDestroy "Post" [("where", JObject []); ("force", JBool true)]] |}).
Proof. reflexivity. Qed.


Example truncate_cascade_stops_at_the_referenced_model :
  truncate Faults.referenced (Some [("cascade", JBool true)]) emptyWorld
  = (Throw (Error "table is referenced"),
     {| nextObjectId := 0;
        clsStore := None;
        trace := [ModelTruncate "Comment" (Some [("cascade", JBool true)]);
                  ModelTruncate "Post" (Some [("cascade", JBool true)])] |}).
Proof. reflexivity. Qed.

(** X14 at three models of which the second cannot be truncated. *)
Lemma truncate_starts_every_model_and_rejects_run :
  is_throw (fst (truncate Faults.referenced None emptyWorld)) = true
  /\ trace (snd (truncate Faults.referenced None emptyWorld))
     = [ModelTruncate "Comment" None; ModelTruncate "Post" None; ModelTruncate "User" None].
Proof.
  apply (truncate_starts_every_model_and_rejects Faults.referenced None emptyWorld
           ["Comment"; "Post"; "User"] "Post" eq_refl eq_refl eq_refl).
  - simpl. tauto.
  - intros w'. reflexivity.
Defined.

(** X15 at an exhausted pool. *)
Lemma acquisition_failure_run :
  fst (withConnection Faults.exhausted (IsCallback observeConnection) None emptyWorld)
    = Throw (Error "pool exhausted")
  /\ trace (snd (withConnection Faults.exhausted (IsCallback observeConnection) None
                   emptyWorld))
     = [GetConnection [("type", JString "write")]].
Proof.
  exact (acquisition_failure_skips_callback_and_release Faults.exhausted
           (IsCallback observeConnection) None writeConnection (Some observeConnection)
           emptyWorld (Error "pool exhausted") eq_refl eq_refl).
Defined.

(** X16 at a callback alone. *)
Lemma withConnection_with_a_callback_alone_run :
  withConnection Faults.sound (IsCallback observeConnection) None emptyWorld
  = (Return 0,
     {| nextObjectId := 0;
        clsStore := None;
        trace := [GetConnection [("type", JString "write")]; ReleaseConnection 0] |}).
Proof.
  exact (withConnection_with_a_callback_alone Faults.sound None emptyWorld 0
           eq_refl eq_refl).
Defined.

(** X17 at [{ type: 'read', destroyConnection: true }]. *)
Lemma withConnection_defaults_type_to_write_run :
  obj_get (fst (parseArguments writeConnection (obj_spread writeConnection)
                  (IsOptions [("type", JString "read"); ("destroyConnection", JBool true)])
                  (Some observeConnection))) "type"
  = JString "read".
Proof.
  refine (proj1 (withConnection_defaults_type_to_write
                   [("type", JString "read"); ("destroyConnection", JBool true)]
                   (Some observeConnection) _)).
  simpl. constructor.
  - simpl. intros [H | []]. discriminate H.
  - constructor; [intros [] | constructor].
Defined.

(** X18 at [withConnection({})]. *)
Lemma withConnection_without_a_callback_run :
  withConnection Faults.sound (IsOptions []) (@None (SessionCallback nat)) emptyWorld
  = (Throw (TypeError "callback is not a function"),
     {| nextObjectId := 0;
        clsStore := None;
        trace := [GetConnection [("type", JString "write")]; ReleaseConnection 0] |}).
Proof.
  exact (withConnection_without_a_callback Faults.sound [] emptyWorld 0 eq_refl eq_refl).
Defined.

(** X20 at [{ constraintType: 'PRIMARY KEY' }]. *)
Lemma showConstraintsQuery_accepts_its_two_filters_run :
  showConstraintsQuery snowflake (TableName "users")
    (Some [("constraintType", JString "PRIMARY KEY")])
  = Return (joinSQLFragments snowflake
              (showConstraintsFragments snowflake
                 (extractTableDetails snowflake (TableName "users"))
                 (Some [("constraintType", JString "PRIMARY KEY")]))).
Proof.
  apply (showConstraintsQuery_accepts_its_two_filters snowflake (TableName "users")
           [("constraintType", JString "PRIMARY KEY")]).
  simpl. intros k [H | []]. right. symmetry. exact H.
Defined.

Example listSchemasQuery_with_skip :
  listSchemasQuery snowflake (Some [("skip", JArray [JString "STAGING"; JString "TMP"])])
  = ("SELECT SCHEMA_NAME AS " ++ dq ++ "schema" ++ dq
     ++ " FROM INFORMATION_SCHEMA.SCHEMATA WHERE SCHEMA_NAME NOT IN ('INFORMATION_SCHEMA', 'PERFORMANCE_SCHEMA', 'SYS', 'STAGING', 'TMP')")%string.
Proof. reflexivity. Qed.

End FaultRuns.
